(** * Exopedia: the data ingestion and validation engine

    A shallow embedding of [ExoplanetDataManager] (the CSV codec, the row
    tokenizer, the import orchestrator and the form validator) together
    with the JavaScript built-ins it calls, and the properties of the
    record model that follow from the code. *)

From Stdlib Require Import List ZArith NArith Bool Lia String Ascii.
From Stdlib Require Import Floats.SpecFloat.
Import ListNotations.

(** ** JavaScript strings

    A JavaScript string is a finite sequence of UTF-16 code units.  The
    code below only ever inspects individual code units (indexing,
    the global replace of the quote character, [split], [trim]), so a string is the list
    of its code units. *)

Module Str.

Definition char := N.
Definition jsstring := list char.

(** An ASCII literal of the source, as code units. *)
Definition lit (s : string) : jsstring :=
  List.map N_of_ascii (list_ascii_of_string s).

Definition QUOTE : char := 34%N.   (* the double quote *)
Definition COMMA : char := 44%N.
Definition LF : char := 10%N.

Definition eqb (a b : jsstring) : bool :=
  if list_eq_dec N.eq_dec a b then true else false.

(** [WhiteSpace] and [LineTerminator] of ECMAScript: what [trim] strips and
    what [parseFloat] skips at the start of its argument. *)
Definition isWhiteSpace (c : char) : bool :=
  ((9 <=? c) && (c <=? 13) || (c =? 32) || (c =? 160) || (c =? 5760)
   || (8192 <=? c) && (c <=? 8202) || (c =? 8232) || (c =? 8233)
   || (c =? 8239) || (c =? 8287) || (c =? 12288) || (c =? 65279))%N.

Fixpoint trimStart (s : jsstring) : jsstring :=
  match s with
  | [] => []
  | c :: rest => if isWhiteSpace c then trimStart rest else s
  end.

Definition trimEnd (s : jsstring) : jsstring := rev (trimStart (rev s)).

(** [s.trim()] *)
Definition trim (s : jsstring) : jsstring := trimEnd (trimStart s).

(** [s.split(sep)] for a one-code-unit separator: never the empty array. *)
Fixpoint split (sep : char) (s : jsstring) : list jsstring :=
  match s with
  | [] => [[]]
  | c :: rest =>
      if (c =? sep)%N then [] :: split sep rest
      else match split sep rest with
           | piece :: pieces => (c :: piece) :: pieces
           | [] => [[c]]
           end
  end.

(** [xs.join(sep)] *)
Fixpoint join (sep : jsstring) (xs : list jsstring) : jsstring :=
  match xs with
  | [] => []
  | [x] => x
  | x :: rest => x ++ sep ++ join sep rest
  end.

(** The global replace of the export: every quote character of the cell
    is doubled. *)
Fixpoint doubleQuotes (cell : jsstring) : jsstring :=
  match cell with
  | [] => []
  | c :: rest =>
      if (c =? QUOTE)%N then QUOTE :: QUOTE :: doubleQuotes rest
      else c :: doubleQuotes rest
  end.

(** Truthiness of a string: every string but the empty one. *)
Definition truthy (s : jsstring) : bool :=
  match s with [] => false | _ :: _ => true end.

(** [s.startsWith(p)], used to recognise the literal [Infinity]. *)
Fixpoint startsWith (p s : jsstring) : option jsstring :=
  match p, s with
  | [], _ => Some s
  | a :: p', b :: s' => if (a =? b)%N then startsWith p' s' else None
  | _ :: _, [] => None
  end.

End Str.

Import Str.

(** ** JavaScript numbers

    A Number is an IEEE 754 binary64 value: [spec_float] of the standard
    library at precision 53 and maximal exponent 1024, with one NaN. *)

Module Num.

Definition number := spec_float.
Definition prec : Z := 53.
Definition emax : Z := 1024.

Definition NaN : number := S754_nan.
Definition zero : number := S754_zero false.

(** The global [isNaN] on a Number. *)
Definition isNaN (x : number) : bool :=
  match x with S754_nan => true | _ => false end.

(** [x < y] on Numbers: false as soon as one side is NaN, and -0 is not
    below +0. *)
Definition ltb (x y : number) : bool := SFltb x y.

(** Identity of Number values (the same sign, mantissa and exponent). *)
Definition same (x y : number) : bool :=
  match x, y with
  | S754_nan, S754_nan => true
  | S754_zero s, S754_zero s' => Bool.eqb s s'
  | S754_infinity s, S754_infinity s' => Bool.eqb s s'
  | S754_finite s m e, S754_finite s' m' e' =>
      Bool.eqb s s' && Pos.eqb m m' && Z.eqb e e'
  | _, _ => false
  end.

(** The Number nearest to [d * 10^e10] (ties to even), with the sign
    [neg]; [d] is not negative.  Overflow gives an infinity and underflow a
    signed zero.  The exact decimal value is rounded, however many digits
    it has, as the engines do. *)
Definition roundDecimal (neg : bool) (d e10 : Z) : number :=
  match d with
  | Zpos m =>
      match e10 with
      | Zneg p =>
          let '(q, e, l) :=
            SFdiv_core_binary prec emax (Zpos m) 0 (Z.pow_pos 10 p) 0 in
          binary_round_aux prec emax neg q e l
      | _ => binary_round prec emax neg (Z.to_pos (Zpos m * 10 ^ e10)) 0
      end
  | _ => S754_zero neg
  end.

Definition isDigit (c : char) : bool := ((48 <=? c) && (c <=? 57))%N.

(** The longest run of decimal digits at the start of [s], as digit
    values, and what follows it. *)
Fixpoint spanDigits (s : jsstring) : list N * jsstring :=
  match s with
  | [] => ([], [])
  | c :: rest =>
      if isDigit c
      then let (ds, r) := spanDigits rest in ((c - 48)%N :: ds, r)
      else ([], s)
  end.

Definition decimalValue (ds : list N) : Z :=
  fold_left (fun acc d => 10 * acc + Z.of_N d)%Z ds 0%Z.

(** An optional sign: whether it is a minus, and what follows it. *)
Definition spanSign (s : jsstring) : bool * jsstring :=
  match s with
  | 43%N :: rest => (false, rest)
  | 45%N :: rest => (true, rest)
  | _ => (false, s)
  end.

(** The value of an [ExponentPart] at the start of [s], or 0 when [s] does
    not start with a complete one (an exponent indicator, an optional sign
    and at least one digit). *)
Definition exponentPart (s : jsstring) : Z :=
  match s with
  | c :: rest =>
      if ((c =? 101) || (c =? 69))%N then
        let (neg, r) := spanSign rest in
        let (ds, _) := spanDigits r in
        if neg then (- decimalValue ds)%Z else decimalValue ds
      else 0%Z
  | [] => 0%Z
  end.

(** The global [parseFloat]: leading white space is skipped, then the
    longest prefix that is a [StrDecimalLiteral] is read (an optional sign,
    then [Infinity] or decimal digits with an optional fraction and an
    optional exponent); NaN when there is no such prefix.  What follows the
    prefix is ignored. *)
Definition parseFloat (s : jsstring) : number :=
  let (neg, t) := spanSign (trimStart s) in
  match startsWith (lit "Infinity") t with
  | Some _ => S754_infinity neg
  | None =>
      let (ip, t1) := spanDigits t in
      let (fp, t2) :=
        match t1 with
        | 46%N :: r => spanDigits r
        | _ => ([], t1)
        end in
      match ip ++ fp with
      | [] => NaN
      | ds => roundDecimal neg (decimalValue ds)
                (exponentPart t2 - Z.of_nat (List.length fp))
      end
  end.

(** [parseFloat] of [undefined]: the argument is first converted to the
    string [undefined], which has no numeric prefix. *)
Definition parseFloatUndefined : number := parseFloat (lit "undefined").

(** *** [Number.prototype.toString]

    The decimal digits of a natural number, most significant first. *)
Definition digitChar (d : N) : char := (48 + d)%N.

Fixpoint digitsFuel (fuel : nat) (n : N) (acc : jsstring) : jsstring :=
  match fuel with
  | O => digitChar (n mod 10) :: acc
  | S f =>
      if (n <? 10)%N then digitChar n :: acc
      else digitsFuel f (n / 10)%N (digitChar (n mod 10) :: acc)
  end.

Definition decimalDigits (n : N) : jsstring :=
  digitsFuel (N.to_nat (N.log2 n)) n [].

(** Whether [num / den < 10^n]. *)
Definition belowPow10 (num den n : Z) : bool :=
  match n with
  | Zneg p => (num * Z.pow_pos 10 p <? den)%Z
  | _ => (num <? 10 ^ n * den)%Z
  end.

(** The least [n], from [n] upwards, with [num / den < 10^n]. *)
Fixpoint decimalExponent (fuel : nat) (num den n : Z) : Z :=
  match fuel with
  | O => n
  | S f => if belowPow10 num den n then n
           else decimalExponent f num den (n + 1)%Z
  end.

(** The digits [s] and the exponent [n] of the shortest decimal
    [s * 10^(n-k)], [k] the number of digits of [s], that reads back as
    the positive Number [x = num / den]; among the candidates of one
    length, the nearest to [x], and the even one when two are as near.
    [n0] is the decimal exponent of [x]: [10^(n0-1) <= x < 10^n0]. *)
Fixpoint shortest (fuel : nat) (x : number) (num den n0 k : Z) : N * Z :=
  let p := (n0 - k)%Z in
  let A := match p with Zneg q => (num * Z.pow_pos 10 q)%Z | _ => num end in
  let B := match p with Zneg _ => den | _ => (den * 10 ^ p)%Z end in
  let lo := (A / B)%Z in
  let hi := (lo + 1)%Z in
  let r := (A mod B)%Z in
  let nearLo :=
    match (2 * r ?= B)%Z with
    | Lt => true
    | Gt => false
    | Eq => Z.even lo
    end in
  let pick (s : Z) : N * Z :=
    if (s =? 10 ^ k)%Z then (Z.to_N (10 ^ (k - 1)), (n0 + 1)%Z)
    else (Z.to_N s, n0) in
  match fuel with
  | O => pick (if nearLo then lo else hi)
  | S f =>
      let okLo := same (roundDecimal false lo p) x in
      let okHi := same (roundDecimal false hi p) x in
      match okLo, okHi with
      | true, true => pick (if nearLo then lo else hi)
      | true, false => pick lo
      | false, true => pick hi
      | false, false => shortest f x num den n0 (k + 1)%Z
      end
  end.

(** The digits and the decimal exponent of the positive finite Number
    [m * 2^e]: at most 17 digits are ever needed. *)
Definition shortestDecimal (m : positive) (e : Z) : jsstring * Z :=
  let num := match e with Zneg _ => Zpos m | _ => (Zpos m * 2 ^ e)%Z end in
  let den := match e with Zneg q => Z.pow_pos 2 q | _ => 1%Z end in
  let n0 := decimalExponent 640 num den (-324) in
  let (s, n) := shortest 16 (S754_finite false m e) num den n0 1 in
  (decimalDigits s, n).

Definition zeros (n : Z) : jsstring := repeat 48%N (Z.to_nat n).

(** The layout of [Number::toString] for the digits [ds] and the decimal
    exponent [n]: plain notation when [-6 < n <= 21], exponential
    otherwise. *)
Definition layout (ds : jsstring) (n : Z) : jsstring :=
  let k := Z.of_nat (List.length ds) in
  if ((-6 <? n) && (n <=? 21))%Z then
    if (k <=? n)%Z then ds ++ zeros (n - k)
    else if (0 <? n)%Z
    then firstn (Z.to_nat n) ds ++ lit "." ++ skipn (Z.to_nat n) ds
    else lit "0." ++ zeros (- n) ++ ds
  else
    let ex := (n - 1)%Z in
    let sign := if (ex <? 0)%Z then lit "-" else lit "+" in
    let mant :=
      match ds with
      | [] => []
      | [d] => [d]
      | d :: more => d :: lit "." ++ more
      end in
    mant ++ lit "e" ++ sign ++ decimalDigits (Z.abs_N ex).

(** [x.toString()] *)
Definition toString (x : number) : jsstring :=
  match x with
  | S754_nan => lit "NaN"
  | S754_zero _ => lit "0"
  | S754_infinity s => (if s then lit "-" else []) ++ lit "Infinity"
  | S754_finite s m e =>
      let (ds, n) := shortestDecimal m e in
      (if s then lit "-" else []) ++ layout ds n
  end.

End Num.

Import Num.

(** ** Abrupt completion

    A JavaScript computation returns normally or throws. *)

Inductive Completion (A : Type) : Type :=
  | Normal (a : A)
  | Throw (err : jsstring).

Arguments Normal {A} a.
Arguments Throw {A} err.

Definition bindC {A B} (c : Completion A) (k : A -> Completion B)
  : Completion B :=
  match c with
  | Normal a => k a
  | Throw err => Throw err
  end.

(** [xs.map(f)] when [f] may throw: the first exception ends the map. *)
Fixpoint mapC {A B} (f : A -> Completion B) (xs : list A)
  : Completion (list B) :=
  match xs with
  | [] => Normal []
  | x :: rest =>
      bindC (f x) (fun y => bindC (mapC f rest) (fun ys => Normal (y :: ys)))
  end.

(** ** JavaScript dates

    A Date holds a time value, an integral number of milliseconds since
    the epoch, or is an Invalid Date. *)

Module JsDate.

Inductive Date : Type :=
  | InvalidDate
  | TimeValue (t : Z).

Definition msPerDay : Z := 86400000.

(** Year, month (1 to 12) and day of the month of a day number counted
    from the epoch, in the proleptic Gregorian calendar. *)
Definition civilFromDays (days : Z) : Z * Z * Z :=
  let z := (days + 719468)%Z in
  let era := (z / 146097)%Z in
  let doe := (z - era * 146097)%Z in
  let yoe := ((doe - doe / 1460 + doe / 36524 - doe / 146096) / 365)%Z in
  let doy := (doe - (365 * yoe + yoe / 4 - yoe / 100))%Z in
  let mp := ((5 * doy + 2) / 153)%Z in
  let d := (doy - (153 * mp + 2) / 5 + 1)%Z in
  let m := (if mp <? 10 then mp + 3 else mp - 9)%Z in
  let y := (yoe + era * 400 + (if m <=? 2 then 1 else 0))%Z in
  (y, m, d).

(** The inverse direction: the day number of a calendar date. *)
Definition daysFromCivil (y m d : Z) : Z :=
  let y' := (if m <=? 2 then y - 1 else y)%Z in
  let era := (y' / 400)%Z in
  let yoe := (y' - era * 400)%Z in
  let doy := ((153 * (if 2 <? m then m - 3 else m + 9) + 2) / 5 + d - 1)%Z in
  let doe := (yoe * 365 + yoe / 4 - yoe / 100 + doy)%Z in
  (era * 146097 + doe - 719468)%Z.

(** [n] in decimal, padded with zeros on the left to [width] digits. *)
Definition pad (width : nat) (n : Z) : jsstring :=
  let ds := decimalDigits (Z.abs_N n) in
  repeat 48%N (width - List.length ds) ++ ds.

Definition isoYear (y : Z) : jsstring :=
  if ((0 <=? y) && (y <=? 9999))%Z then pad 4 y
  else (if (y <? 0)%Z then lit "-" else lit "+") ++ pad 6 y.

(** The text of [toISOString] for the time value [t]. *)
Definition isoString (t : Z) : jsstring :=
  let '(y, m, d) := civilFromDays (t / msPerDay) in
  let ms := (t mod msPerDay)%Z in
  isoYear y ++ lit "-" ++ pad 2 m ++ lit "-" ++ pad 2 d ++ lit "T"
  ++ pad 2 (ms / 3600000) ++ lit ":" ++ pad 2 (ms / 60000 mod 60)
  ++ lit ":" ++ pad 2 (ms / 1000 mod 60) ++ lit "."
  ++ pad 3 (ms mod 1000) ++ lit "Z".

(** [d.toISOString()]: a RangeError on an Invalid Date. *)
Definition toISOString (d : Date) : Completion jsstring :=
  match d with
  | InvalidDate => Throw (lit "RangeError: Invalid time value")
  | TimeValue t => Normal (isoString t)
  end.

(** A reader of the timestamps [toISOString] writes for the years 0 to
    9999, [YYYY-MM-DDTHH:mm:ss.sssZ], and of nothing else: the part of
    [Date.parse] every host shares, used where a concrete host is
    needed. *)
Definition twoDigits (a b : char) : option Z :=
  if isDigit a && isDigit b
  then Some (Z.of_N ((a - 48) * 10 + (b - 48))) else None.

Definition daysInMonth (y m : Z) : Z :=
  (daysFromCivil (if m =? 12 then y + 1 else y) (if m =? 12 then 1 else m + 1) 1
   - daysFromCivil y m 1)%Z.

Definition parseTimestamp (s : jsstring) : Date :=
  match s with
  | [y1; y2; y3; y4; 45; m1; m2; 45; d1; d2; 84; h1; h2; 58; n1; n2; 58;
     s1; s2; 46; f1; f2; f3; 90]%N =>
      match twoDigits y1 y2, twoDigits y3 y4, twoDigits m1 m2,
            twoDigits d1 d2, twoDigits h1 h2, twoDigits n1 n2,
            twoDigits s1 s2, twoDigits 48%N f1, twoDigits f2 f3 with
      | Some yh, Some yl, Some m, Some d, Some h, Some n, Some sec,
        Some fh, Some fl =>
          let y := (yh * 100 + yl)%Z in
          if ((1 <=? m) && (m <=? 12) && (1 <=? d) && (d <=? daysInMonth y m)
              && (h <=? 23) && (n <=? 59) && (sec <=? 59))%Z
          then TimeValue (daysFromCivil y m d * msPerDay + h * 3600000
                          + n * 60000 + sec * 1000 + fh * 100 + fl)
          else InvalidDate
      | _, _, _, _, _, _, _, _, _ => InvalidDate
      end
  | _ => InvalidDate
  end.

End JsDate.

Import JsDate.

(** ** The record model (types/exoplanet.ts) *)

Record StellarProperties : Type := {
  radius : number;
  temperature : number;
  magnitude : number
}.

Record ExoplanetData : Type := {
  id : jsstring;
  name : jsstring;
  orbitalPeriod : number;
  transitDepth : number;
  transitDuration : number;
  signalToNoiseRatio : number;
  stellarProperties : StellarProperties;
  dateAdded : Date;
  notes : option jsstring;
  result : option jsstring
}.

(** The all-string staging shape of the entry form. *)
Module Form.
Record ExoplanetFormData : Type := {
  name : jsstring;
  orbitalPeriod : jsstring;
  transitDepth : jsstring;
  transitDuration : jsstring;
  signalToNoiseRatio : jsstring;
  stellarRadius : jsstring;
  stellarTemperature : jsstring;
  stellarMagnitude : jsstring;
  notes : option jsstring
}.
End Form.

(** What a failure entry carries as [data]: the tokens of the row, or the
    raw line when the row threw. *)
Inductive RawData : Type :=
  | Cells (cells : list jsstring)
  | Line (line : jsstring).

Record Failure : Type := {
  row : Z;
  error : jsstring;
  data : RawData
}.

Record ImportResult : Type := {
  successful : list ExoplanetData;
  failed : list Failure
}.

(** ** The host

    What the page gets from its environment: the identifiers
    [crypto.randomUUID()] returns call after call, the times [new Date()]
    reads call after call, and the reading of a date from a string by
    [new Date(s)], which ECMAScript leaves to the host for most inputs.
    The state of a run is how many identifiers and clock readings have been
    consumed. *)

Record Host : Type := {
  uuidAt : nat -> jsstring;
  timeAt : nat -> Z;
  dateParse : jsstring -> Date
}.

Record World : Type := {
  uuidCalls : nat;
  clockReads : nat
}.

Definition M (A : Type) : Type := World -> A * World.

Definition ret {A} (a : A) : M A := fun w => (a, w).

Definition bind {A B} (m : M A) (k : A -> M B) : M B :=
  fun w => let (a, w') := m w in k a w'.

Notation "x <- m ;; k" := (bind m (fun x => k))
  (at level 61, m at next level, right associativity).

Module ExoplanetDataManager.

Section WithHost.

Variable host : Host.

(** [crypto.randomUUID()] *)
Definition randomUUID : M jsstring :=
  fun w => (uuidAt host (uuidCalls w),
            {| uuidCalls := S (uuidCalls w); clockReads := clockReads w |}).

(** [new Date()] *)
Definition newDate : M Date :=
  fun w => (TimeValue (timeAt host (clockReads w)),
            {| uuidCalls := uuidCalls w; clockReads := S (clockReads w) |}).

(** *** validateFormData *)

Record NumericField : Type := {
  field : Form.ExoplanetFormData -> jsstring;
  label : jsstring;
  min : option number
}.

Definition numericFields : list NumericField :=
  [ {| field := Form.orbitalPeriod; label := lit "Orbital Period";
       min := Some zero |};
    {| field := Form.transitDepth; label := lit "Transit Depth";
       min := Some zero |};
    {| field := Form.transitDuration; label := lit "Transit Duration";
       min := Some zero |};
    {| field := Form.signalToNoiseRatio; label := lit "Signal-to-Noise Ratio";
       min := Some zero |};
    {| field := Form.stellarRadius; label := lit "Stellar Radius";
       min := Some zero |};
    {| field := Form.stellarTemperature; label := lit "Stellar Temperature";
       min := Some zero |};
    {| field := Form.stellarMagnitude; label := lit "Stellar Magnitude";
       min := None |} ].

(** The body of the [forEach]: [errors] after the check of one field. *)
Definition checkField (formData : Form.ExoplanetFormData)
    (errors : list jsstring) (f : NumericField) : list jsstring :=
  let value := parseFloat (field f formData) in
  if isNaN value then errors ++ [label f ++ lit " must be a valid number"]
  else
    match min f with
    | Some m =>
        if ltb value m
        then errors ++ [label f ++ lit " must be greater than " ++ toString m]
        else errors
    | None => errors
    end.

Definition validateFormData (formData : Form.ExoplanetFormData)
  : list jsstring :=
  let errors :=
    if truthy (trim (Form.name formData)) then []
    else [lit "Name is required"] in
  fold_left (checkField formData) numericFields errors.

(** *** exportToCSV *)

Definition headers : list jsstring :=
  [ lit "Name"; lit "Orbital Period (days)"; lit "Transit Depth (ppm)";
    lit "Transit Duration (hours)"; lit "Signal-to-Noise Ratio";
    lit "Stellar Radius (Solar Radii)"; lit "Stellar Temperature (K)";
    lit "Stellar Magnitude"; lit "Date Added"; lit "Notes" ].

(** [x || ''] on an optional string. *)
Definition orEmpty (x : option jsstring) : jsstring :=
  match x with Some s => s | None => [] end.

(** [x || undefined] on an optional string. *)
Definition orUndefined (x : option jsstring) : option jsstring :=
  match x with
  | Some s => if truthy s then Some s else None
  | None => None
  end.

(** The cells of one record, before quoting. *)
Definition baseRow (includeResult : bool) (item : ExoplanetData)
  : Completion (list jsstring) :=
  bindC (toISOString (dateAdded item)) (fun iso =>
  Normal
    ([ name item;
       toString (orbitalPeriod item);
       toString (transitDepth item);
       toString (transitDuration item);
       toString (signalToNoiseRatio item);
       toString (radius (stellarProperties item));
       toString (temperature (stellarProperties item));
       toString (magnitude (stellarProperties item));
       iso;
       orEmpty (notes item) ]
     ++ (if includeResult then [orEmpty (result item)] else []))).

(** One cell between quotes, its own quotes doubled. *)
Definition quoteCell (cell : jsstring) : jsstring :=
  QUOTE :: doubleQuotes cell ++ [QUOTE].

Definition encodeRow (cells : list jsstring) : jsstring :=
  join [COMMA] (List.map quoteCell cells).

Definition exportToCSV (items : list ExoplanetData) (includeResult : bool)
  : Completion jsstring :=
  let headers :=
    headers ++ (if includeResult then [lit "Result"] else []) in
  bindC (mapC (baseRow includeResult) items) (fun rows =>
  Normal (join [LF] (List.map encodeRow (headers :: rows)))).

(** *** parseCSVLine

    The loop over the code units of the line: [line] is what is left from
    index [i] on, so that its second element is [line[i + 1]]. *)
Fixpoint parseLoop (line : jsstring) (result : list jsstring)
    (current : jsstring) (inQuotes : bool) : list jsstring :=
  match line with
  | [] => result ++ [current]
  | char :: rest =>
      if (char =? QUOTE)%N then
        match inQuotes, rest with
        | true, next :: rest' =>
            if (next =? QUOTE)%N
            then parseLoop rest' result (current ++ [QUOTE]) inQuotes
            else parseLoop rest result current (negb inQuotes)
        | _, _ => parseLoop rest result current (negb inQuotes)
        end
      else if (char =? COMMA)%N && negb inQuotes
      then parseLoop rest (result ++ [current]) [] inQuotes
      else parseLoop rest result (current ++ [char]) inQuotes
  end.

Definition parseCSVLine (line : jsstring) : list jsstring :=
  parseLoop line [] [] false.

(** *** importFromCSV *)

(** [cells[k]]: [undefined] past the end. *)
Definition cellAt (cells : list jsstring) (k : nat) : option jsstring :=
  nth_error cells k.

(** [parseFloat(cells[k])] *)
Definition parseFloatAt (cells : list jsstring) (k : nat) : number :=
  match cellAt cells k with
  | Some s => parseFloat s
  | None => parseFloatUndefined
  end.

(** [cells[8] ? new Date(cells[8]) : new Date()] *)
Definition dateOf (cells : list jsstring) : M Date :=
  match cellAt cells 8 with
  | Some s => if truthy s then ret (dateParse host s) else newDate
  | None => newDate
  end.

(** How the body of the [try] ends for one line when it does not throw. *)
Inductive Outcome : Type :=
  | Accepted (exoplanet : ExoplanetData)
  | Rejected (failure : Failure).

(** The body of the [try] for the line of index [i]. *)
Definition tryRow (i : nat) (line : jsstring) : M (Completion Outcome) :=
  let cells := parseCSVLine line in
  if (List.length cells <? 8)%nat then
    ret (Normal (Rejected {| row := Z.of_nat i + 1;
                             error := lit "Insufficient columns";
                             data := Cells cells |}))
  else
    uuid <- randomUUID ;;
    date <- dateOf cells ;;
    let requiredNumbers :=
      [ parseFloatAt cells 1; parseFloatAt cells 2; parseFloatAt cells 3;
        parseFloatAt cells 4; parseFloatAt cells 5; parseFloatAt cells 6;
        parseFloatAt cells 7 ] in
    let invalid :=
      {| row := Z.of_nat i + 1;
         error := lit "Invalid data format";
         data := Cells cells |} in
    if existsb isNaN requiredNumbers then ret (Normal (Rejected invalid))
    else
      match cellAt cells 0 with
      | None =>
          ret (Throw (lit "TypeError: exoplanet.name is undefined"))
      | Some cell0 =>
          if negb (truthy (trim cell0)) then ret (Normal (Rejected invalid))
          else
            ret (Normal (Accepted
              {| id := uuid;
                 name := cell0;
                 orbitalPeriod := parseFloatAt cells 1;
                 transitDepth := parseFloatAt cells 2;
                 transitDuration := parseFloatAt cells 3;
                 signalToNoiseRatio := parseFloatAt cells 4;
                 stellarProperties :=
                   {| radius := parseFloatAt cells 5;
                      temperature := parseFloatAt cells 6;
                      magnitude := parseFloatAt cells 7 |};
                 dateAdded := date;
                 notes := orUndefined (cellAt cells 9);
                 result := None |}))
      end.

(** One turn of the [for] loop: the [try] and its [catch]. *)
Definition importRow (i : nat) (line : jsstring) (acc : ImportResult)
  : M ImportResult :=
  c <- tryRow i line ;;
  ret match c with
      | Normal (Accepted exoplanet) =>
          {| successful := successful acc ++ [exoplanet];
             failed := failed acc |}
      | Normal (Rejected failure) =>
          {| successful := successful acc;
             failed := failed acc ++ [failure] |}
      | Throw err =>
          {| successful := successful acc;
             failed := failed acc ++
               [ {| row := Z.of_nat i + 1;
                    error := lit "Parse error: " ++ err;
                    data := Line line |} ] |}
      end.

(** The [for] loop from the line of index [i] on. *)
Fixpoint importLoop (i : nat) (lines : list jsstring) (acc : ImportResult)
  : M ImportResult :=
  match lines with
  | [] => ret acc
  | line :: rest =>
      acc' <- importRow i line acc ;;
      importLoop (S i) rest acc'
  end.

Definition importFromCSV (csvContent : jsstring) : M ImportResult :=
  let lines := split LF (trim csvContent) in
  importLoop 1 (tl lines) {| successful := []; failed := [] |}.

(** *** formDataToExoplanet *)

(** [formData.notes?.trim() || undefined] *)
Definition trimmedNotes (x : option jsstring) : option jsstring :=
  orUndefined (option_map trim x).

Definition formDataToExoplanet (formData : Form.ExoplanetFormData)
  : M ExoplanetData :=
  uuid <- randomUUID ;;
  date <- newDate ;;
  ret {| id := uuid;
         name := trim (Form.name formData);
         orbitalPeriod := parseFloat (Form.orbitalPeriod formData);
         transitDepth := parseFloat (Form.transitDepth formData);
         transitDuration := parseFloat (Form.transitDuration formData);
         signalToNoiseRatio := parseFloat (Form.signalToNoiseRatio formData);
         stellarProperties :=
           {| radius := parseFloat (Form.stellarRadius formData);
              temperature := parseFloat (Form.stellarTemperature formData);
              magnitude := parseFloat (Form.stellarMagnitude formData) |};
         dateAdded := date;
         notes := trimmedNotes (Form.notes formData);
         result := None |}.

End WithHost.

End ExoplanetDataManager.

(** ** The collection of the page (App.tsx)

    The three updates of the state that holds the records; the answer to
    the confirmation dialog is an input. *)

Module App.

Definition handleAddExoplanet (prev : list ExoplanetData)
    (newExoplanet : ExoplanetData) : list ExoplanetData :=
  prev ++ [newExoplanet].

Definition handleDeleteExoplanet (confirmed : bool) (id' : jsstring)
    (prev : list ExoplanetData) : list ExoplanetData :=
  if confirmed
  then filter (fun exoplanet => negb (Str.eqb (id exoplanet) id')) prev
  else prev.

Definition handleImportExoplanets (prev importedExoplanets : list ExoplanetData)
  : list ExoplanetData :=
  prev ++ importedExoplanets.

End App.

(** ** The import and export panel (components/DataImportExport.tsx) *)

Module DataImportExport.

(** What a handler shows or saves. *)
Inductive Effect : Type :=
  | Alert (message : jsstring)
  | SaveAs (content fileName : jsstring).

Section WithHost.

Variable host : Host.

(** [handleExport]: nothing is exported from an empty collection; the
    text of the export is saved under a name that holds the date part of
    the current time; whatever the [try] throws ends in an alert. *)
Definition handleExport (items : list ExoplanetData) (includeResult : bool)
  : M Effect :=
  if (List.length items =? 0)%nat then ret (Alert (lit "No data to export"))
  else
    match ExoplanetDataManager.exportToCSV items includeResult with
    | Throw _ =>
        ret (Alert (lit "Failed to export data. Please try again."))
    | Normal csvContent =>
        now <- ExoplanetDataManager.newDate host ;;
        match toISOString now with
        | Throw _ =>
            ret (Alert (lit "Failed to export data. Please try again."))
        | Normal iso =>
            let timestamp := hd [] (split 84%N iso) in
            ret (SaveAs csvContent
                   (lit "exoplanet-data-" ++ timestamp ++ lit ".csv"))
        end
    end.

(** The [onload] handler of [handleFileSelect] on the collection [prev]:
    the result of the import is kept for display, and the successful
    records are handed to the page when there is at least one. *)
Definition fileLoaded (csvContent : jsstring) (prev : list ExoplanetData)
  : M (list ExoplanetData * ImportResult) :=
  r <- ExoplanetDataManager.importFromCSV host csvContent ;;
  ret (if (0 <? List.length (successful r))%nat
       then App.handleImportExoplanets prev (successful r)
       else prev,
       r).

End WithHost.

(** The text [downloadTemplate] offers. *)
Definition templateData : jsstring :=
  join [LF]
    [ lit "Name,Orbital Period (days),Transit Depth (ppm),Transit Duration (hours),Signal-to-Noise Ratio,Stellar Radius (Solar Radii),Stellar Temperature (K),Stellar Magnitude,Date Added,Notes";
      lit "Kepler-442b,112.3,850.2,6.25,15.8,1.2,5770,13.2,2024-01-01T00:00:00.000Z,Example exoplanet data";
      lit "HD 40307 g,197.8,1200.5,8.12,12.4,0.77,4977,7.17,2024-01-02T00:00:00.000Z,Another example" ].

End DataImportExport.

(** ** The analysis service (services/aiModelService.ts) *)

(** One record as the model is sent it. *)
Module ModelInput.
Record t : Type := {
  name : jsstring;
  orbital_period : number;
  transit_depth : number;
  transit_duration : number;
  signal_to_noise_ratio : number;
  stellar_radius : number;
  stellar_temperature : number;
  stellar_magnitude : number;
  date_added : jsstring;
  notes : jsstring
}.
End ModelInput.

Module AIModelService.

Definition formatDataForModel (items : list ExoplanetData)
  : Completion (list ModelInput.t) :=
  mapC (fun planet =>
          bindC (toISOString (dateAdded planet)) (fun iso =>
          Normal
            {| ModelInput.name := name planet;
               ModelInput.orbital_period := orbitalPeriod planet;
               ModelInput.transit_depth := transitDepth planet;
               ModelInput.transit_duration := transitDuration planet;
               ModelInput.signal_to_noise_ratio := signalToNoiseRatio planet;
               ModelInput.stellar_radius := radius (stellarProperties planet);
               ModelInput.stellar_temperature :=
                 temperature (stellarProperties planet);
               ModelInput.stellar_magnitude :=
                 magnitude (stellarProperties planet);
               ModelInput.date_added := iso;
               ModelInput.notes := ExoplanetDataManager.orEmpty (notes planet)
            |}))
       items.

Definition prepareInputTensor (items : list ExoplanetData)
  : list (list number) :=
  List.map (fun planet =>
              [ orbitalPeriod planet;
                transitDepth planet;
                transitDuration planet;
                signalToNoiseRatio planet;
                radius (stellarProperties planet);
                temperature (stellarProperties planet);
                magnitude (stellarProperties planet) ])
           items.

End AIModelService.

Import ExoplanetDataManager.

(** ** The vocabulary of the specification *)

(** The lines the import sees, the header line first. *)
Definition linesOf (csvContent : jsstring) : list jsstring :=
  split LF (trim csvContent).

(** The data lines: every line after the first. *)
Definition dataLines (csvContent : jsstring) : list jsstring :=
  tl (linesOf csvContent).

(** The seven numeric tokens of a row, parsed. *)
Definition numbersOf (cells : list jsstring) : list number :=
  List.map (parseFloatAt cells) [1; 2; 3; 4; 5; 6; 7]%nat.

(** A row is valid when it has at least 8 tokens, its seven numeric tokens
    parse to a number and its name is not empty after trimming. *)
Definition validRow (line : jsstring) : bool :=
  let cells := parseCSVLine line in
  (8 <=? List.length cells)%nat
  && forallb (fun x => negb (isNaN x)) (numbersOf cells)
  && match cellAt cells 0 with
     | Some cell0 => truthy (trim cell0)
     | None => false
     end.

(** The failure entry of the line of index [i], if the row is not valid. *)
Definition failureOf (i : nat) (line : jsstring) : option Failure :=
  let cells := parseCSVLine line in
  if validRow line then None
  else Some {| row := Z.of_nat i + 1;
               error := if (List.length cells <? 8)%nat
                        then lit "Insufficient columns"
                        else lit "Invalid data format";
               data := Cells cells |}.

(** The failure entries of the lines [lines], the first of index [i]. *)
Fixpoint failuresFrom (i : nat) (lines : list jsstring) : list Failure :=
  match lines with
  | [] => []
  | line :: rest =>
      match failureOf i line with
      | Some f => f :: failuresFrom (S i) rest
      | None => failuresFrom (S i) rest
      end
  end.

(** What a record holds besides its identifier and its date. *)
Record Payload : Type := {
  p_name : jsstring;
  p_numbers : list number;
  p_notes : option jsstring;
  p_result : option jsstring
}.

Definition payload (e : ExoplanetData) : Payload :=
  {| p_name := name e;
     p_numbers := [ orbitalPeriod e; transitDepth e; transitDuration e;
                    signalToNoiseRatio e; radius (stellarProperties e);
                    temperature (stellarProperties e);
                    magnitude (stellarProperties e) ];
     p_notes := notes e;
     p_result := result e |}.

(** The payload the import reads from the tokens of a valid row. *)
Definition payloadOfRow (line : jsstring) : Payload :=
  let cells := parseCSVLine line in
  {| p_name := orEmpty (cellAt cells 0);
     p_numbers := numbersOf cells;
     p_notes := orUndefined (cellAt cells 9);
     p_result := None |}.

(** The record invariant on the numeric fields: none is below zero, the
    magnitude apart. *)
Definition nonNegativeFields (e : ExoplanetData) : bool :=
  forallb (fun x => negb (ltb x zero))
    [ orbitalPeriod e; transitDepth e; transitDuration e;
      signalToNoiseRatio e; radius (stellarProperties e);
      temperature (stellarProperties e) ].

Definition noLF (s : jsstring) : Prop := Forall (fun c => c <> LF) s.

(** A host and an initial state to run the code on: identifiers
    [uuid-0], [uuid-1], ..., a clock that starts on 2023-11-14 and ticks
    one millisecond per reading, dates read by [parseTimestamp]. *)
Definition sampleHost : Host :=
  {| uuidAt := fun n => lit "uuid-" ++ decimalDigits (N.of_nat n);
     timeAt := fun n => (1700000000000 + Z.of_nat n)%Z;
     dateParse := parseTimestamp |}.

Definition start : World := {| uuidCalls := 0; clockReads := 0 |}.

(** Text of several lines. *)
Definition text (lines : list string) : jsstring :=
  join [LF] (List.map lit lines).

Definition headerLine : string :=
  "Name,Orbital Period (days),Transit Depth (ppm),Transit Duration (hours),Signal-to-Noise Ratio,Stellar Radius (Solar Radii),Stellar Temperature (K),Stellar Magnitude,Date Added,Notes".

(** Where the date of a record imported from [line] comes from: read from
    token 9 when that token is present and not empty, and otherwise one
    of the clock readings [lo], ..., [hi - 1]. *)
Definition datedBy (host : Host) (lo hi : nat) (line : jsstring)
    (e : ExoplanetData) : Prop :=
  match cellAt (parseCSVLine line) 8 with
  | Some (c :: s) => dateAdded e = dateParse host (c :: s)
  | _ => exists k, (lo <= k < hi)%nat
                   /\ dateAdded e = TimeValue (timeAt host k)
  end.

(** A record imported from [line]. *)
Definition importedFrom (host : Host) (lo hi : nat) (line : jsstring)
    (e : ExoplanetData) : Prop :=
  payload e = payloadOfRow line /\ datedBy host lo hi line e.

(** The reading of the row numbers that takes the header for row 0 and
    numbers the data rows from 1: every failure entry carries the index of
    its line. *)
Definition rowIsLineIndex (host : Host) (csvContent : jsstring) (w : World)
  : Prop :=
  forall f, In f (failed (fst (importFromCSV host csvContent w))) ->
    exists i line,
      (1 <= i)%nat
      /\ nth_error (linesOf csvContent) i = Some line
      /\ data f = Cells (parseCSVLine line)
      /\ row f = Z.of_nat i.

(** A file of three valid rows and, third of the four, a row whose transit
    depth is not a number. *)
Definition partialFile : jsstring :=
  text [ headerLine;
         "Kepler-442b,112.3,420,5.6,15.2,0.6,4402,14.76,2024-01-15T10:30:00.000Z,candidate";
         "Kepler-22b,289.9,492,7.4,12.1,0.98,5518,11.66";
         "HD 209458 b,3.52,n/a,3.1,40,1.2,6065,7.65";
         "TRAPPIST-1e,6.1,5000,1,30,0.12,2566,18.8,," ]%string.

(** A file whose only data row has 5 tokens, followed by a valid row. *)
Definition shortRowFile : jsstring :=
  text [ headerLine;
         "a,b,c,d,e";
         "TRAPPIST-1e,6.1,5000,1,30,0.12,2566,18.8" ]%string.

(** A file whose first data row has a negative orbital period. *)
Definition negativePeriodFile : jsstring :=
  text [ headerLine; "Kepler-442b,-5,420,5.6,15.2,0.6,4402,14.76" ]%string.

(** A form field the validator accepts under a minimum of 0: it parses to
    a number, and that number is not below 0. *)
Definition accepted (value : jsstring) : bool :=
  negb (isNaN (parseFloat value)) && negb (ltb (parseFloat value) zero).

(** A form with a blank name and a negative orbital period. *)
Definition badForm : Form.ExoplanetFormData :=
  {| Form.name := lit "  ";
     Form.orbitalPeriod := lit "-3";
     Form.transitDepth := lit "420";
     Form.transitDuration := lit "5.6";
     Form.signalToNoiseRatio := lit "15.2";
     Form.stellarRadius := lit "0.6";
     Form.stellarTemperature := lit "4402";
     Form.stellarMagnitude := lit "14.76";
     Form.notes := None |}.

(** A valid form whose magnitude is [magnitude]. *)
Definition formWithMagnitude (magnitude : jsstring)
  : Form.ExoplanetFormData :=
  {| Form.name := lit "Sirius b";
     Form.orbitalPeriod := lit "112.3";
     Form.transitDepth := lit "420";
     Form.transitDuration := lit "5.6";
     Form.signalToNoiseRatio := lit "15.2";
     Form.stellarRadius := lit "0.6";
     Form.stellarTemperature := lit "4402";
     Form.stellarMagnitude := magnitude;
     Form.notes := None |}.

(** A record whose name holds a comma and two quotes. *)
Definition quotedName : jsstring :=
  lit "Kepler, " ++ [QUOTE] ++ lit "442b" ++ [QUOTE].

Definition kepler442b : ExoplanetData :=
  {| id := lit "7f9c2ba4-e88f-427f-9d2a-0a1b2c3d4e5f";
     name := quotedName;
     orbitalPeriod := parseFloat (lit "112.3");
     transitDepth := parseFloat (lit "420");
     transitDuration := parseFloat (lit "5.6");
     signalToNoiseRatio := parseFloat (lit "15.2");
     stellarProperties :=
       {| radius := parseFloat (lit "0.6");
          temperature := parseFloat (lit "4402");
          magnitude := parseFloat (lit "14.76") |};
     dateAdded := TimeValue 1705314600000;
     notes := Some (lit "habitable zone, " ++ [QUOTE] ++ lit "super-Earth"
                    ++ [QUOTE]);
     result := None |}.

(** ** The round trip *)

(** The text [toISOString] gives for a date, empty for an Invalid Date
    (where [toISOString] throws). *)
Definition isoOf (d : Date) : jsstring :=
  match d with
  | TimeValue t => isoString t
  | InvalidDate => []
  end.

(** The cells of the row of a record whose date is valid. *)
Definition rowCells (includeResult : bool) (item : ExoplanetData)
  : list jsstring :=
  [ name item;
    toString (orbitalPeriod item);
    toString (transitDepth item);
    toString (transitDuration item);
    toString (signalToNoiseRatio item);
    toString (radius (stellarProperties item));
    toString (temperature (stellarProperties item));
    toString (magnitude (stellarProperties item));
    isoOf (dateAdded item);
    orEmpty (notes item) ]
  ++ (if includeResult then [orEmpty (result item)] else []).

(** The header row of the export. *)
Definition headerCells (includeResult : bool) : list jsstring :=
  headers ++ (if includeResult then [lit "Result"] else []).

(** A valid Observation Record of the data model: a name that is not
    empty after trimming, six numeric fields that are not below zero (so
    none is NaN), a magnitude that is a number, a valid date. *)
Definition validRecord (item : ExoplanetData) : Prop :=
  truthy (trim (name item)) = true
  /\ forallb (fun x => SFleb zero x)
       [ orbitalPeriod item; transitDepth item; transitDuration item;
         signalToNoiseRatio item; radius (stellarProperties item);
         temperature (stellarProperties item) ] = true
  /\ isNaN (magnitude (stellarProperties item)) = false
  /\ exists t, dateAdded item = TimeValue t.

(** Two records that agree on every field but the identifier. *)
Definition sameButId (item e : ExoplanetData) : Prop :=
  name e = name item
  /\ p_numbers (payload e) = p_numbers (payload item)
  /\ dateAdded e = dateAdded item
  /\ notes e = notes item
  /\ result e = result item.

(** The round trip as the specification words it: the export succeeds
    and the import of its text has no failure and gives back the records,
    in order, up to their identifiers. *)
Definition roundTrips (host : Host) (items : list ExoplanetData)
    (includeResult : bool) (w : World) : Prop :=
  exists csv,
    exportToCSV items includeResult = Normal csv
    /\ failed (fst (importFromCSV host csv w)) = []
    /\ Forall2 sameButId items (successful (fst (importFromCSV host csv w))).

(** A Number that the import reads back from its decimal text: every
    Number but NaN, which the import rejects, and -0, which is written as
    0. *)
Definition readsBack (x : number) : Prop :=
  isNaN x = false /\ parseFloat (toString x) = x.

(** The records the round trip preserves: no line feed in the name, the
    notes or, when it is exported, the result; a name that is not blank;
    numbers that read back; a valid date that the host reads back from its
    timestamp; notes that are absent or not empty. *)
Definition exportable (host : Host) (includeResult : bool)
    (item : ExoplanetData) : Prop :=
  noLF (name item)
  /\ truthy (trim (name item)) = true
  /\ Forall readsBack (p_numbers (payload item))
  /\ (exists t, dateAdded item = TimeValue t
                /\ dateParse host (isoString t) = TimeValue t)
  /\ match notes item with
     | Some s => s <> [] /\ noLF s
     | None => True
     end
  /\ (includeResult = true -> noLF (orEmpty (result item))).

(** Two records that agree on every field but the identifier and the
    result, which the second lacks. *)
Definition sameButIdAndResult (item e : ExoplanetData) : Prop :=
  name e = name item
  /\ p_numbers (payload e) = p_numbers (payload item)
  /\ dateAdded e = dateAdded item
  /\ notes e = notes item
  /\ result e = None.

(** A valid record that the analysis step has classified. *)
Definition classified : ExoplanetData :=
  {| id := lit "7f9c2ba4-e88f-427f-9d2a-0a1b2c3d4e5f";
     name := lit "Kepler-442b";
     orbitalPeriod := parseFloat (lit "112.3");
     transitDepth := parseFloat (lit "420");
     transitDuration := parseFloat (lit "5.6");
     signalToNoiseRatio := parseFloat (lit "15.2");
     stellarProperties :=
       {| radius := parseFloat (lit "0.6");
          temperature := parseFloat (lit "4402");
          magnitude := parseFloat (lit "14.76") |};
     dateAdded := TimeValue 1705314600000;
     notes := Some (lit "habitable zone");
     result := Some (lit "exo") |}.

(** A text that starts and ends with a quote. *)
Definition quoted (s : jsstring) : Prop :=
  (exists a, s = QUOTE :: a) /\ (exists b, s = b ++ [QUOTE]).

(** A second record, without notes and with a negative magnitude. *)
Definition sirius : ExoplanetData :=
  {| id := lit "0b5a7c1e-3d2f-4a6b-8c9d-1e2f3a4b5c6d";
     name := lit " Sirius b ";
     orbitalPeriod := parseFloat (lit "18295.5");
     transitDepth := parseFloat (lit "0.000012");
     transitDuration := parseFloat (lit "2e-7");
     signalToNoiseRatio := parseFloat (lit "1e21");
     stellarProperties :=
       {| radius := parseFloat (lit "1.711");
          temperature := parseFloat (lit "9940");
          magnitude := parseFloat (lit "-1.46") |};
     dateAdded := TimeValue 951868799999;
     notes := None;
     result := Some (lit "not exo") |}.

(** The form that holds the tokens of the data row of
    [negativePeriodFile]. *)
Definition negativePeriodForm : Form.ExoplanetFormData :=
  {| Form.name := lit "Kepler-442b";
     Form.orbitalPeriod := lit "-5";
     Form.transitDepth := lit "420";
     Form.transitDuration := lit "5.6";
     Form.signalToNoiseRatio := lit "15.2";
     Form.stellarRadius := lit "0.6";
     Form.stellarTemperature := lit "4402";
     Form.stellarMagnitude := lit "14.76";
     Form.notes := None |}.

(** Three valid records on the edge of the round trip: a name on two
    lines, notes that are the empty string, a magnitude of -0. *)
Definition plain (name' : jsstring) (magnitude' : number)
    (notes' : option jsstring) : ExoplanetData :=
  {| id := lit "c0ffee00-0000-4000-8000-000000000001";
     name := name';
     orbitalPeriod := parseFloat (lit "112.3");
     transitDepth := parseFloat (lit "420");
     transitDuration := parseFloat (lit "5.6");
     signalToNoiseRatio := parseFloat (lit "15.2");
     stellarProperties :=
       {| radius := parseFloat (lit "0.6");
          temperature := parseFloat (lit "4402");
          magnitude := magnitude' |};
     dateAdded := TimeValue 1705314600000;
     notes := notes';
     result := None |}.

Definition twoLineName : ExoplanetData :=
  plain (lit "Kepler" ++ [LF] ++ lit "442b") (parseFloat (lit "14.76")) None.

Definition emptyNotes : ExoplanetData :=
  plain (lit "Kepler-442b") (parseFloat (lit "14.76")) (Some []).

Definition minusZero : ExoplanetData :=
  plain (lit "Kepler-442b") (S754_zero true) None.

(** Closes a goal [noLF s] on a closed text. *)
Ltac literal_noLF := vm_compute; repeat constructor; discriminate.

(** Closes a goal [validRecord r] on a closed record. *)
Ltac valid_by_computation :=
  unfold validRecord; repeat split; try (vm_compute; reflexivity);
  now eexists.

(** ** Vocabulary of the further properties *)

Definition noQuote (s : jsstring) : Prop := Forall (fun c => c <> QUOTE) s.

Definition noComma (s : jsstring) : Prop := Forall (fun c => c <> COMMA) s.

(** The number of commas of a line. *)
Definition commas (line : jsstring) : nat := count_occ N.eq_dec line COMMA.

(** [tokens] with [c] added at the end of the last token. *)
Definition appendToLast (tokens : list jsstring) (c : char)
  : list jsstring :=
  removelast tokens ++ [last tokens [] ++ [c]].

(** [tokens] with [text] added at the end of the last token. *)
Definition extendLast (tokens : list jsstring) (text : jsstring)
  : list jsstring :=
  removelast tokens ++ [last tokens [] ++ text].

(** [tokens] with [text] put before the first token. *)
Definition prefixFirst (text : jsstring) (tokens : list jsstring)
  : list jsstring :=
  match tokens with
  | first :: more => (text ++ first) :: more
  | [] => [text]
  end.

(** A few lines to run the tokenizer on. *)
Definition unclosedQuoteLine : jsstring :=
  lit "Kepler-442b,112.3," ++ [QUOTE] ++ lit "420,5.6,15.2,0.6,4402,14.76".

Definition inchesLine : jsstring :=
  lit "Scope 8" ++ [QUOTE] ++ lit ", f/10" ++ [QUOTE] ++ lit " SCT".

(** What holds of every record the import accepts: a name that is not
    blank, seven numbers none of which is NaN, no result, and notes that
    are absent or not empty. *)
Definition wellImported (e : ExoplanetData) : Prop :=
  truthy (trim (name e)) = true
  /\ forallb (fun x => negb (isNaN x)) (p_numbers (payload e)) = true
  /\ result e = None
  /\ notes e <> Some [].

(** The identifiers the host hands out from the state [w] on, [n] of
    them. *)
Definition nextUuids (host : Host) (w : World) (n : nat) : list jsstring :=
  List.map (uuidAt host) (seq (uuidCalls w) n).

(** A record whose name, notes and, when it is exported, result hold no
    line feed. *)
Definition singleLine (includeResult : bool) (item : ExoplanetData) : Prop :=
  noLF (name item)
  /\ noLF (orEmpty (notes item))
  /\ (includeResult = true -> noLF (orEmpty (result item))).

(** The number of columns of the export. *)
Definition columns (includeResult : bool) : nat :=
  if includeResult then 11%nat else 10%nat.

(** A file whose data row carries a date that is no date. *)
Definition badDateFile : jsstring :=
  text [ headerLine;
         "Kepler-442b,112.3,420,5.6,15.2,0.6,4402,14.76,yesterday,seen" ]%string.

(** The error of the name rule, from the text of the name. *)
Definition nameError (name' : jsstring) : list jsstring :=
  if truthy (trim name') then [] else [lit "Name is required"].

(** The error of one numeric rule, from the text of its field. *)
Definition fieldError (f : NumericField) (value : jsstring)
  : list jsstring :=
  if isNaN (parseFloat value)
  then [label f ++ lit " must be a valid number"]
  else
    match min f with
    | Some m =>
        if ltb (parseFloat value) m
        then [label f ++ lit " must be greater than " ++ toString m]
        else []
    | None => []
    end.

(** The six fields of a form that have a minimum. *)
Definition boundedFields (formData : Form.ExoplanetFormData)
  : list jsstring :=
  [ Form.orbitalPeriod formData; Form.transitDepth formData;
    Form.transitDuration formData; Form.signalToNoiseRatio formData;
    Form.stellarRadius formData; Form.stellarTemperature formData ].

(** A form of zeros and infinities. *)
Definition edgeForm : Form.ExoplanetFormData :=
  {| Form.name := lit "Kepler-442b";
     Form.orbitalPeriod := lit "0";
     Form.transitDepth := lit "-0";
     Form.transitDuration := lit "Infinity";
     Form.signalToNoiseRatio := lit "0.0";
     Form.stellarRadius := lit "1e999";
     Form.stellarTemperature := lit "-1e-999";
     Form.stellarMagnitude := lit "-Infinity";
     Form.notes := Some (lit "   ") |}.

(** What a record of the model input shares with the row of the record in
    the export: the name, the seven numbers, the text of the date and the
    text of the notes. *)
Definition matchesRow (item : ExoplanetData) (m : ModelInput.t) : Prop :=
  ModelInput.name m = name item
  /\ [ ModelInput.orbital_period m; ModelInput.transit_depth m;
       ModelInput.transit_duration m; ModelInput.signal_to_noise_ratio m;
       ModelInput.stellar_radius m; ModelInput.stellar_temperature m;
       ModelInput.stellar_magnitude m ] = p_numbers (payload item)
  /\ cellAt (rowCells false item) 8 = Some (ModelInput.date_added m)
  /\ cellAt (rowCells false item) 9 = Some (ModelInput.notes m).

(** The date part of the timestamp of the time value [t]. *)
Definition dateStamp (t : Z) : jsstring :=
  let '(y, m, d) := civilFromDays (t / msPerDay) in
  isoYear y ++ lit "-" ++ pad 2 m ++ lit "-" ++ pad 2 d.

(** The payloads of the two rows of the template. *)
Definition templatePayloads : list Payload :=
  [ {| p_name := lit "Kepler-442b";
       p_numbers := List.map parseFloat
                      [ lit "112.3"; lit "850.2"; lit "6.25"; lit "15.8";
                        lit "1.2"; lit "5770"; lit "13.2" ];
       p_notes := Some (lit "Example exoplanet data");
       p_result := None |};
    {| p_name := lit "HD 40307 g";
       p_numbers := List.map parseFloat
                      [ lit "197.8"; lit "1200.5"; lit "8.12"; lit "12.4";
                        lit "0.77"; lit "4977"; lit "7.17" ];
       p_notes := Some (lit "Another example");
       p_result := None |} ].

Definition blank (s : jsstring) : Prop :=
  Forall (fun c => isWhiteSpace c = true) s.

(** The form that holds the first eight tokens of a row. *)
Definition formOfCells (cells : list jsstring) : Form.ExoplanetFormData :=
  {| Form.name := nth 0 cells [];
     Form.orbitalPeriod := nth 1 cells [];
     Form.transitDepth := nth 2 cells [];
     Form.transitDuration := nth 3 cells [];
     Form.signalToNoiseRatio := nth 4 cells [];
     Form.stellarRadius := nth 5 cells [];
     Form.stellarTemperature := nth 6 cells [];
     Form.stellarMagnitude := nth 7 cells [];
     Form.notes := nth_error cells 9 |}.

(** * Properties *)

(** ** The tokenizer undoes the quoting of the export *)

Lemma parseLoop_quoted (body rest : jsstring) :
  (forall c r, rest = c :: r -> c <> QUOTE) ->
  forall (result : list jsstring) (current : jsstring),
    parseLoop (doubleQuotes body ++ QUOTE :: rest) result current true
    = parseLoop rest result (current ++ body) false.
Proof.
  intros Hrest. induction body as [|c body IH]; intros result current.
  - rewrite app_nil_r. cbn [doubleQuotes app parseLoop].
    rewrite N.eqb_refl. destruct rest as [|c r]; [reflexivity|].
    destruct (N.eqb_spec c QUOTE) as [E|_]; [|reflexivity].
    exfalso. exact (Hrest c r eq_refl E).
  - cbn [doubleQuotes]. destruct (N.eqb_spec c QUOTE) as [E|E].
    + subst c. cbn [app parseLoop]. rewrite N.eqb_refl.
      rewrite IH. now rewrite <- app_assoc.
    + cbn [app parseLoop]. apply N.eqb_neq in E. rewrite E.
      rewrite andb_false_r. rewrite IH. now rewrite <- app_assoc.
Qed.

Lemma parseLoop_encodeRow (cells : list jsstring) :
  cells <> [] ->
  forall result : list jsstring,
    parseLoop (encodeRow cells) result [] false = result ++ cells.
Proof.
  induction cells as [|c cells IH]; [congruence|]. intros _ result.
  unfold encodeRow. destruct cells as [|c' cells].
  - cbn [List.map join quoteCell parseLoop]. rewrite N.eqb_refl.
    rewrite parseLoop_quoted by (intros ? ? [=]). reflexivity.
  - change (join [COMMA] (List.map quoteCell (c :: c' :: cells)))
      with (quoteCell c ++ [COMMA] ++ encodeRow (c' :: cells)).
    unfold quoteCell at 1. cbn [app parseLoop]. rewrite N.eqb_refl.
    rewrite <- app_assoc. cbn [app].
    rewrite parseLoop_quoted by (intros ? ? [= <- _]; discriminate).
    cbn [parseLoop app]. change (COMMA =? QUOTE)%N with false.
    rewrite N.eqb_refl. cbn [andb negb].
    rewrite IH by discriminate. now rewrite <- app_assoc.
Qed.

Lemma parseCSVLine_encodeRow (cells : list jsstring) :
  cells <> [] -> parseCSVLine (encodeRow cells) = cells.
Proof. intros H. unfold parseCSVLine. now rewrite parseLoop_encodeRow. Qed.

(** ** One row of the import *)

Section ImportFacts.

Variable host : Host.

Lemma existsb_isNaN (xs : list number) :
  existsb isNaN xs = negb (forallb (fun x => negb (isNaN x)) xs).
Proof.
  induction xs as [|x xs IH]; [reflexivity|]. cbn [existsb forallb].
  rewrite IH. now destruct (isNaN x).
Qed.

Lemma dateOf_spec (cells : list jsstring) (w : World) :
  exists d w', dateOf host cells w = (d, w')
    /\ uuidCalls w' = uuidCalls w
    /\ (clockReads w <= clockReads w' <= S (clockReads w))%nat
    /\ match cellAt cells 8 with
       | Some (c :: s) => d = dateParse host (c :: s)
       | _ => d = TimeValue (timeAt host (clockReads w))
              /\ clockReads w' = S (clockReads w)
       end.
Proof.
  unfold dateOf. destruct (cellAt cells 8) as [[|c s]|]; cbn [truthy].
  - eexists _, _. split; [reflexivity|]. cbn. repeat split; lia.
  - eexists _, _. split; [reflexivity|]. cbn. repeat split; lia.
  - eexists _, _. split; [reflexivity|]. cbn. repeat split; lia.
Qed.

(** A row that is not valid is rejected with its failure entry. *)
Lemma tryRow_invalid (i : nat) (line : jsstring) (f : Failure) (w : World) :
  failureOf i line = Some f ->
  exists w', tryRow host i line w = (Normal (Rejected f), w')
    /\ (clockReads w <= clockReads w')%nat.
Proof.
  unfold failureOf, validRow, tryRow.
  destruct (Nat.ltb_spec (List.length (parseCSVLine line)) 8) as [Hlt|Hge].
  - replace (8 <=? List.length (parseCSVLine line))%nat with false
      by (symmetry; apply Nat.leb_gt; lia).
    cbn [andb]. intros [= <-]. exists w. split; [reflexivity|lia].
  - replace (8 <=? List.length (parseCSVLine line))%nat with true
      by (symmetry; apply Nat.leb_le; lia).
    cbn [andb]. unfold bind, randomUUID.
    destruct (dateOf_spec (parseCSVLine line)
                {| uuidCalls := S (uuidCalls w);
                   clockReads := clockReads w |})
      as (d & w' & -> & _ & Hclock & _).
    cbn [clockReads] in Hclock.
    change [parseFloatAt (parseCSVLine line) 1;
            parseFloatAt (parseCSVLine line) 2;
            parseFloatAt (parseCSVLine line) 3;
            parseFloatAt (parseCSVLine line) 4;
            parseFloatAt (parseCSVLine line) 5;
            parseFloatAt (parseCSVLine line) 6;
            parseFloatAt (parseCSVLine line) 7]
      with (numbersOf (parseCSVLine line)).
    rewrite existsb_isNaN.
    destruct (forallb _ (numbersOf (parseCSVLine line))); cbn [negb andb].
    + destruct (cellAt (parseCSVLine line) 0) as [cell0|] eqn:E0.
      * destruct (truthy (trim cell0)); [discriminate|].
        intros [= <-]. exists w'. split; [reflexivity|lia].
      * apply nth_error_None in E0. lia.
    + intros [= <-]. exists w'. split; [reflexivity|lia].
Qed.

(** A valid row is accepted: the record holds the tokens of the row. *)
Lemma tryRow_valid (i : nat) (line : jsstring) (w : World) :
  validRow line = true ->
  exists e w', tryRow host i line w = (Normal (Accepted e), w')
    /\ payload e = payloadOfRow line
    /\ id e = uuidAt host (uuidCalls w)
    /\ datedBy host (clockReads w) (clockReads w') line e
    /\ (clockReads w <= clockReads w')%nat.
Proof.
  unfold validRow, tryRow. intros Hv.
  apply andb_prop in Hv. destruct Hv as [Hv Hname].
  apply andb_prop in Hv. destruct Hv as [Hlen Hnum].
  apply Nat.leb_le in Hlen.
  replace (List.length (parseCSVLine line) <? 8)%nat with false
    by (symmetry; apply Nat.ltb_ge; lia).
  unfold bind, randomUUID.
  destruct (dateOf_spec (parseCSVLine line)
              {| uuidCalls := S (uuidCalls w); clockReads := clockReads w |})
    as (d & w' & -> & _ & Hclock & Hd).
  cbn [clockReads] in Hclock, Hd.
  change [parseFloatAt (parseCSVLine line) 1;
          parseFloatAt (parseCSVLine line) 2;
          parseFloatAt (parseCSVLine line) 3;
          parseFloatAt (parseCSVLine line) 4;
          parseFloatAt (parseCSVLine line) 5;
          parseFloatAt (parseCSVLine line) 6;
          parseFloatAt (parseCSVLine line) 7]
    with (numbersOf (parseCSVLine line)).
  rewrite existsb_isNaN, Hnum. cbn [negb].
  destruct (cellAt (parseCSVLine line) 0) as [cell0|] eqn:E0;
    [|discriminate].
  rewrite Hname. cbn [negb].
  eexists _, w'. split; [reflexivity|].
  split; [unfold payload, payloadOfRow; rewrite E0; reflexivity|].
  split; [reflexivity|]. split; [|lia].
  unfold datedBy. cbn [dateAdded].
  destruct (cellAt (parseCSVLine line) 8) as [[|c s]|].
  - exists (clockReads w). destruct Hd as [-> ->]. split; [lia|reflexivity].
  - exact Hd.
  - exists (clockReads w). destruct Hd as [-> ->]. split; [lia|reflexivity].
Qed.

(** The body of the [try] never throws: the [catch] is never entered. *)
Lemma tryRow_normal (i : nat) (line : jsstring) (w : World) :
  exists o, fst (tryRow host i line w) = Normal o.
Proof.
  destruct (failureOf i line) as [f|] eqn:E.
  - destruct (tryRow_invalid i line f w E) as (w' & -> & _). now eexists.
  - assert (Hv : validRow line = true).
    { unfold failureOf in E. now destruct (validRow line). }
    destruct (tryRow_valid i line w Hv) as (e & w' & -> & _). now eexists.
Qed.

Lemma failureOf_valid (i : nat) (line : jsstring) :
  failureOf i line = None <-> validRow line = true.
Proof. unfold failureOf. destruct (validRow line); split; congruence. Qed.

Lemma datedBy_mono (lo hi lo' hi' : nat) (line : jsstring)
    (e : ExoplanetData) :
  (lo' <= lo)%nat -> (hi <= hi')%nat ->
  datedBy host lo hi line e -> datedBy host lo' hi' line e.
Proof.
  intros Hlo Hhi. unfold datedBy.
  destruct (cellAt (parseCSVLine line) 8) as [[|c s]|]; try tauto.
  - intros (k & Hk & E). exists k. split; [lia|exact E].
  - intros (k & Hk & E). exists k. split; [lia|exact E].
Qed.

(** ** The loop of the import

    The failure entries are those of the rows that are not valid, in
    order; the records are those of the valid rows, in order. *)

Lemma importLoop_spec (lines : list jsstring) :
  forall (i : nat) (acc : ImportResult) (w : World),
  exists new w',
    importLoop host i lines acc w
    = ({| successful := successful acc ++ new;
          failed := failed acc ++ failuresFrom i lines |}, w')
    /\ Forall2 (importedFrom host (clockReads w) (clockReads w'))
         (filter validRow lines) new
    /\ (clockReads w <= clockReads w')%nat.
Proof.
  induction lines as [|line rest IH]; intros i acc w.
  - exists [], w. cbn. rewrite !app_nil_r. destruct acc.
    repeat split; [constructor|lia].
  - cbn [importLoop failuresFrom filter]. unfold bind at 1.
    unfold importRow, bind, ret.
    destruct (failureOf i line) as [f|] eqn:E.
    + destruct (tryRow_invalid i line f w E) as (w1 & -> & Hw1).
      assert (Hv : validRow line = false).
      { destruct (validRow line) eqn:Hv; [|reflexivity].
        apply failureOf_valid with (i := i) in Hv. congruence. }
      rewrite Hv.
      destruct (IH (S i) {| successful := successful acc;
                            failed := failed acc ++ [f] |} w1)
        as (new & w' & -> & Hnew & Hw').
      exists new, w'. cbn [successful failed]. rewrite <- app_assoc.
      split; [reflexivity|]. split; [|lia].
      eapply Forall2_impl; [|exact Hnew].
      intros l e [Hp Hd]. split; [exact Hp|].
      eapply datedBy_mono; [| |exact Hd]; lia.
    + apply failureOf_valid in E. rewrite E.
      destruct (tryRow_valid i line w E)
        as (e & w1 & -> & Hp & _ & Hd & Hw1).
      destruct (IH (S i) {| successful := successful acc ++ [e];
                            failed := failed acc |} w1)
        as (new & w' & -> & Hnew & Hw').
      exists (e :: new), w'. cbn [successful failed]. rewrite <- app_assoc.
      split; [reflexivity|]. split; [|lia].
      constructor.
      * split; [exact Hp|]. eapply datedBy_mono; [| |exact Hd]; lia.
      * eapply Forall2_impl; [|exact Hnew].
        intros l e' [Hp' Hd']. split; [exact Hp'|].
        eapply datedBy_mono; [| |exact Hd']; lia.
Qed.

Lemma importFromCSV_spec (csvContent : jsstring) (w : World) :
  exists new w',
    importFromCSV host csvContent w
    = ({| successful := new;
          failed := failuresFrom 1 (dataLines csvContent) |}, w')
    /\ Forall2 (importedFrom host (clockReads w) (clockReads w'))
         (filter validRow (dataLines csvContent)) new.
Proof.
  unfold importFromCSV.
  destruct (importLoop_spec (tl (split LF (trim csvContent))) 1
              {| successful := []; failed := [] |} w)
    as (new & w' & E & Hnew & _).
  exists new, w'. split; [exact E|exact Hnew].
Qed.

End ImportFacts.

(** ** Lists of lines *)

Lemma nth_error_tl {A} (l : list A) (k : nat) :
  nth_error (tl l) k = nth_error l (S k).
Proof. destruct l; [now destruct k|reflexivity]. Qed.

Lemma dataLines_nth (csvContent : jsstring) (i : nat) (line : jsstring) :
  (1 <= i)%nat ->
  nth_error (linesOf csvContent) i = Some line ->
  nth_error (dataLines csvContent) (i - 1) = Some line.
Proof.
  intros Hi E. unfold dataLines. rewrite nth_error_tl.
  now replace (S (i - 1)) with i by lia.
Qed.

Lemma Forall2_In_l {A B} (R : A -> B -> Prop) (l : list A) (l' : list B)
    (a : A) :
  Forall2 R l l' -> In a l -> exists b, In b l' /\ R a b.
Proof.
  induction 1 as [|x y l l' Hxy _ IH]; intros Hin; [destruct Hin|].
  destruct Hin as [<-|Hin].
  - exists y. split; [now left|exact Hxy].
  - destruct (IH Hin) as (b & Hb & Hab). exists b. split; [now right|exact Hab].
Qed.

Lemma failuresFrom_In (lines : list jsstring) (f : Failure) :
  forall i : nat,
    In f (failuresFrom i lines)
    <-> exists k line, nth_error lines k = Some line
                       /\ failureOf (i + k) line = Some f.
Proof.
  induction lines as [|l lines IH]; intros i.
  - split; [intros []|]. intros (k & line & E & _). now destruct k.
  - cbn [failuresFrom]. split.
    + intros Hin.
      assert (Hcases : failureOf i l = Some f
                       \/ In f (failuresFrom (S i) lines)).
      { destruct (failureOf i l) as [f0|]; [|now right].
        destruct Hin as [->|Hin]; [now left|now right]. }
      destruct Hcases as [E|Hin'].
      * exists 0%nat, l. now rewrite Nat.add_0_r.
      * apply IH in Hin'. destruct Hin' as (k & line & E & Ef).
        exists (S k), line. split; [exact E|].
        now replace (i + S k)%nat with (S i + k)%nat by lia.
    + intros (k & line & E & Ef). destruct k as [|k].
      * cbn in E. injection E as ->. rewrite Nat.add_0_r in Ef.
        rewrite Ef. now left.
      * assert (Hin : In f (failuresFrom (S i) lines)).
        { apply IH. exists k, line. split; [exact E|].
          now replace (S i + k)%nat with (i + S k)%nat by lia. }
        destruct (failureOf i l); [now right|exact Hin].
Qed.

Lemma failuresFrom_length (lines : list jsstring) :
  forall i : nat,
    List.length (failuresFrom i lines)
    = List.length (filter (fun l => negb (validRow l)) lines).
Proof.
  induction lines as [|l lines IH]; intros i; [reflexivity|].
  cbn [failuresFrom filter]. unfold failureOf at 1.
  destruct (validRow l); cbn [negb List.length]; now rewrite IH.
Qed.

Lemma filter_partition_length {A} (p : A -> bool) (l : list A) :
  (List.length (filter p l) + List.length (filter (fun x => negb (p x)) l)
   = List.length l)%nat.
Proof.
  induction l as [|x l IH]; [reflexivity|]. cbn [filter].
  destruct (p x); cbn [negb List.length]; lia.
Qed.

Lemma split_noLF (s : jsstring) : noLF s -> split LF s = [s].
Proof.
  induction 1 as [|c s Hc _ IH]; [reflexivity|]. cbn [split].
  apply N.eqb_neq in Hc. now rewrite Hc, IH.
Qed.

Lemma failuresFrom_data (lines : list jsstring) (f : Failure) (i : nat) :
  In f (failuresFrom i lines) -> exists cells, data f = Cells cells.
Proof.
  intros Hin. apply failuresFrom_In in Hin.
  destruct Hin as (k & line & _ & E). unfold failureOf in E.
  destruct (validRow line); [discriminate|]. injection E as <-.
  now eexists.
Qed.

(** ** The import as a whole *)

(** C10. Totality and partition of the import: on every input and every
    host the import returns a result, every data line contributes exactly
    one entry (a record or a failure entry), no entry comes from the catch
    clause, and an input that holds only the header line, that is without a
    line feed once trimmed, gives no record and no failure. *)
Theorem import_total_partition (host : Host) (csvContent : jsstring)
    (w : World) :
  let r := fst (importFromCSV host csvContent w) in
  (List.length (successful r) + List.length (failed r)
   = List.length (dataLines csvContent))%nat
  /\ (forall f, In f (failed r) -> exists cells, data f = Cells cells)
  /\ (noLF (trim csvContent) -> successful r = [] /\ failed r = []).
Proof.
  destruct (importFromCSV_spec host csvContent w)
    as (new & w' & E & Hnew).
  rewrite E. cbn [fst successful failed].
  apply Forall2_length in Hnew. rewrite <- Hnew, failuresFrom_length.
  split; [apply filter_partition_length|].
  split; [intros f; apply failuresFrom_data|].
  intros Hlf. revert Hnew. unfold dataLines, linesOf.
  rewrite (split_noLF _ Hlf). cbn.
  destruct new; [split; reflexivity|discriminate].
Qed.

Lemma import_total_partition_witness :
  noLF (trim (lit headerLine))
  /\ fst (importFromCSV sampleHost (lit headerLine) start)
     = {| successful := []; failed := [] |}.
Proof.
  assert (H : noLF (trim (lit headerLine))).
  { vm_compute. repeat constructor; discriminate. }
  split; [exact H|].
  destruct (import_total_partition sampleHost (lit headerLine) start)
    as (_ & _ & Hempty).
  destruct (Hempty H) as [Hs Hf].
  destruct (fst (importFromCSV sampleHost (lit headerLine) start)).
  cbn in Hs, Hf. now subst.
Defined.

Lemma valid_row_imported (host : Host) (lo hi : nat)
    (lines : list jsstring) (new : list ExoplanetData) (k : nat)
    (line : jsstring) :
  Forall2 (importedFrom host lo hi) (filter validRow lines) new ->
  nth_error lines k = Some line -> validRow line = true ->
  exists e, In e new /\ payload e = payloadOfRow line.
Proof.
  intros Hnew E Hv.
  assert (Hin : In line (filter validRow lines)).
  { apply filter_In. split; [|exact Hv]. eapply nth_error_In, E. }
  destruct (Forall2_In_l _ _ _ _ Hnew Hin) as (e & He & Hp & _).
  now exists e.
Qed.

(** C5. A data row that tokenizes to fewer than 8 tokens is recorded as a
    failure with the error Insufficient columns and its tokens as data (so
    not through the catch clause), and the lines after it are still
    processed: each later valid row has its record and each later row that
    is not valid has its failure entry. *)
Theorem insufficient_columns_recorded (host : Host) (csvContent : jsstring)
    (w : World) (i : nat) (line : jsstring) :
  (1 <= i)%nat ->
  nth_error (linesOf csvContent) i = Some line ->
  (List.length (parseCSVLine line) < 8)%nat ->
  let r := fst (importFromCSV host csvContent w) in
  In {| row := Z.of_nat i + 1;
        error := lit "Insufficient columns";
        data := Cells (parseCSVLine line) |} (failed r)
  /\ forall j later,
       (i < j)%nat -> nth_error (linesOf csvContent) j = Some later ->
       (validRow later = true ->
        exists e, In e (successful r) /\ payload e = payloadOfRow later)
       /\ (forall f, failureOf j later = Some f -> In f (failed r)).
Proof.
  intros Hi E Hlen.
  destruct (importFromCSV_spec host csvContent w) as (new & w' & Er & Hnew).
  rewrite Er. cbn [fst successful failed]. split.
  - apply failuresFrom_In. exists (i - 1)%nat, line.
    split; [now apply dataLines_nth|].
    replace (1 + (i - 1))%nat with i by lia.
    unfold failureOf, validRow.
    replace (8 <=? List.length (parseCSVLine line))%nat with false
      by (symmetry; apply Nat.leb_gt; lia).
    replace (List.length (parseCSVLine line) <? 8)%nat with true
      by (symmetry; apply Nat.ltb_lt; lia).
    reflexivity.
  - intros j later Hj Ej. split.
    + intros Hv.
      apply (valid_row_imported host _ _ (dataLines csvContent) new (j - 1)
               later Hnew); [apply dataLines_nth; [lia|exact Ej]|exact Hv].
    + intros f Ef. apply failuresFrom_In. exists (j - 1)%nat, later.
      split; [apply dataLines_nth; [lia|exact Ej]|].
      now replace (1 + (j - 1))%nat with j by lia.
Qed.

Lemma insufficient_columns_recorded_witness :
  let r := fst (importFromCSV sampleHost shortRowFile start) in
  In {| row := 2;
        error := lit "Insufficient columns";
        data := Cells [lit "a"; lit "b"; lit "c"; lit "d"; lit "e"] |}
     (failed r)
  /\ exists e, In e (successful r) /\ name e = lit "TRAPPIST-1e".
Proof.
  assert (E1 : nth_error (linesOf shortRowFile) 1 = Some (lit "a,b,c,d,e"))
    by (vm_compute; reflexivity).
  assert (E2 : nth_error (linesOf shortRowFile) 2
               = Some (lit "TRAPPIST-1e,6.1,5000,1,30,0.12,2566,18.8"))
    by (vm_compute; reflexivity).
  assert (Hlen : (List.length (parseCSVLine (lit "a,b,c,d,e")) < 8)%nat)
    by (vm_compute; lia).
  destruct (insufficient_columns_recorded sampleHost shortRowFile start 1
              (lit "a,b,c,d,e") (le_n 1) E1 Hlen) as [Hfail Hnext].
  split; [exact Hfail|].
  destruct (Hnext 2%nat _ (le_n 2) E2) as [Hvalid _].
  destruct (Hvalid ltac:(vm_compute; reflexivity)) as (e & He & Hp).
  exists e. split; [exact He|].
  change (name e) with (p_name (payload e)). rewrite Hp.
  vm_compute. reflexivity.
Defined.

(** C4. The import isolates failures per row: whatever the other rows
    are, every valid data row has its record in the successful list and
    every row that is not valid has a failure entry with its tokens; the
    two lists are as long as the valid and the other rows are many.  In
    particular four data rows of which three are valid and one has a
    transit depth that is not a number give three records and one
    failure. *)
Theorem import_isolates_failures (host : Host) (csvContent : jsstring)
    (w : World) :
  let r := fst (importFromCSV host csvContent w) in
  (forall i line,
      (1 <= i)%nat -> nth_error (linesOf csvContent) i = Some line ->
      if validRow line
      then exists e, In e (successful r) /\ payload e = payloadOfRow line
      else exists f, In f (failed r)
                     /\ data f = Cells (parseCSVLine line))
  /\ List.length (successful r)
     = List.length (filter validRow (dataLines csvContent))
  /\ List.length (failed r)
     = List.length (filter (fun l => negb (validRow l)) (dataLines csvContent))
  /\ (List.length (dataLines csvContent) = 4%nat ->
      List.length (filter validRow (dataLines csvContent)) = 3%nat ->
      (exists bad, In bad (dataLines csvContent)
                   /\ isNaN (parseFloatAt (parseCSVLine bad) 2) = true) ->
      List.length (successful r) = 3%nat /\ List.length (failed r) = 1%nat).
Proof.
  destruct (importFromCSV_spec host csvContent w) as (new & w' & Er & Hnew).
  rewrite Er. cbn [fst successful failed].
  assert (Hlen : List.length new
                 = List.length (filter validRow (dataLines csvContent))).
  { symmetry. eapply Forall2_length, Hnew. }
  split; [|split; [exact Hlen|split; [apply failuresFrom_length|]]].
  - intros i line Hi E. destruct (validRow line) eqn:Hv.
    + apply (valid_row_imported host _ _ (dataLines csvContent) new (i - 1)
               line Hnew); [now apply dataLines_nth|exact Hv].
    + eexists. split.
      * apply failuresFrom_In. exists (i - 1)%nat, line.
        split; [now apply dataLines_nth|].
        unfold failureOf. rewrite Hv. reflexivity.
      * reflexivity.
  - intros H4 H3 _. split; [congruence|].
    rewrite failuresFrom_length.
    pose proof (filter_partition_length validRow (dataLines csvContent)).
    lia.
Qed.

Lemma import_isolates_failures_witness :
  let r := fst (importFromCSV sampleHost partialFile start) in
  List.length (successful r) = 3%nat /\ List.length (failed r) = 1%nat.
Proof.
  destruct (import_isolates_failures sampleHost partialFile start)
    as (_ & _ & _ & H).
  apply H.
  - vm_compute. reflexivity.
  - vm_compute. reflexivity.
  - exists (lit "HD 209458 b,3.52,n/a,3.1,40,1.2,6065,7.65").
    split; [vm_compute; tauto|vm_compute; reflexivity].
Defined.

(** C3, as the specification words it, fails: the only data row of the
    file below is line 1 of the file, and its failure entry carries row
    2. *)
Lemma rowIsLineIndex_fails :
  ~ rowIsLineIndex sampleHost (text [headerLine; "a,b,c,d,e"]%string) start.
Proof.
  intros H.
  destruct (H {| row := 2;
                 error := lit "Insufficient columns";
                 data := Cells [lit "a"; lit "b"; lit "c"; lit "d"; lit "e"] |})
    as (i & line & Hi & E & _ & Hrow).
  - vm_compute. now left.
  - cbn [row] in Hrow. assert (i = 2%nat) by lia. subst i.
    vm_compute in E. discriminate.
Qed.

(** C3, amended. Every failure entry carries the number of its line
    counted from 1 with the header as line 1: the entry of the line of
    index [i] (the header has index 0) has row [i + 1], and every entry of
    the failed list is the entry of such a line. *)
Theorem failure_row_is_line_number (host : Host) (csvContent : jsstring)
    (w : World) :
  let r := fst (importFromCSV host csvContent w) in
  (forall i line,
      (1 <= i)%nat -> nth_error (linesOf csvContent) i = Some line ->
      validRow line = false ->
      exists f, In f (failed r)
                /\ row f = (Z.of_nat i + 1)%Z
                /\ data f = Cells (parseCSVLine line))
  /\ (forall f, In f (failed r) ->
      exists i line,
        (1 <= i)%nat /\ nth_error (linesOf csvContent) i = Some line
        /\ validRow line = false
        /\ row f = (Z.of_nat i + 1)%Z
        /\ data f = Cells (parseCSVLine line)).
Proof.
  destruct (importFromCSV_spec host csvContent w) as (new & w' & Er & _).
  rewrite Er. cbn [fst failed]. split.
  - intros i line Hi E Hv. eexists. split.
    + apply failuresFrom_In. exists (i - 1)%nat, line.
      split; [now apply dataLines_nth|].
      unfold failureOf. rewrite Hv. reflexivity.
    + replace (1 + (i - 1))%nat with i by lia. split; reflexivity.
  - intros f Hin. apply failuresFrom_In in Hin.
    destruct Hin as (k & line & E & Ef).
    exists (S k), line. split; [lia|].
    split; [unfold dataLines in E; now rewrite nth_error_tl in E|].
    unfold failureOf in Ef. destruct (validRow line); [discriminate|].
    injection Ef as <-. repeat split.
Qed.

Lemma failure_row_is_line_number_witness :
  exists f,
    In f (failed (fst (importFromCSV sampleHost partialFile start)))
    /\ row f = 4%Z
    /\ data f = Cells (parseCSVLine
                         (lit "HD 209458 b,3.52,n/a,3.1,40,1.2,6065,7.65")).
Proof.
  destruct (failure_row_is_line_number sampleHost partialFile start)
    as [H _].
  apply (H 3%nat (lit "HD 209458 b,3.52,n/a,3.1,40,1.2,6065,7.65")).
  - lia.
  - vm_compute. reflexivity.
  - vm_compute. reflexivity.
Defined.

(** C9. The records of an import are those of its valid rows, in order,
    and the date of each comes from token 9 of its row: when the row has
    exactly 8 tokens or token 9 is the empty string, the date is a reading
    of the clock taken during the import; when token 9 is present and not
    empty, the date is read from it. *)
Theorem date_added_source (host : Host) (csvContent : jsstring) (w : World) :
  Forall2
    (fun line e =>
       let cells := parseCSVLine line in
       payload e = payloadOfRow line
       /\ (List.length cells = 8%nat \/ cellAt cells 8 = Some [] ->
           exists k,
             (clockReads w <= k
              < clockReads (snd (importFromCSV host csvContent w)))%nat
             /\ dateAdded e = TimeValue (timeAt host k))
       /\ (forall token,
             cellAt cells 8 = Some token -> token <> [] ->
             dateAdded e = dateParse host token))
    (filter validRow (dataLines csvContent))
    (successful (fst (importFromCSV host csvContent w))).
Proof.
  destruct (importFromCSV_spec host csvContent w) as (new & w' & Er & Hnew).
  rewrite Er. cbn [fst snd successful].
  eapply Forall2_impl; [|exact Hnew].
  intros line e [Hp Hd]. cbn zeta. split; [exact Hp|].
  unfold datedBy in Hd. split.
  - intros [Hlen|Hempty].
    + assert (E : cellAt (parseCSVLine line) 8 = None)
        by (apply nth_error_None; lia).
      now rewrite E in Hd.
    + now rewrite Hempty in Hd.
  - intros token E Hne. rewrite E in Hd.
    destruct token; [congruence|exact Hd].
Qed.

Lemma date_added_source_witness :
  exists e1 e2 e3,
    successful (fst (importFromCSV sampleHost partialFile start))
    = [e1; e2; e3]
    /\ dateAdded e1 = TimeValue 1705314600000
    /\ dateAdded e2 = TimeValue 1700000000000
    /\ dateAdded e3 = TimeValue 1700000000002.
Proof.
  pose proof (date_added_source sampleHost partialFile start) as H.
  remember (successful (fst (importFromCSV sampleHost partialFile start)))
    as recs eqn:E.
  vm_compute in E. subst recs. do 3 eexists. split; [reflexivity|].
  cbn [dateAdded]. repeat split.
Defined.

(** C2. The import accepts a row whose orbital period is negative: the
    record it builds from the data row of [negativePeriodFile] has an
    orbital period of -5 and so breaks the invariant of the record model,
    while the validator of the entry form rejects the same tokens. *)
Theorem import_accepts_negative_period :
  (exists e,
     successful (fst (importFromCSV sampleHost negativePeriodFile start)) = [e]
     /\ failed (fst (importFromCSV sampleHost negativePeriodFile start)) = []
     /\ orbitalPeriod e = parseFloat (lit "-5")
     /\ ltb (orbitalPeriod e) zero = true
     /\ nonNegativeFields e = false)
  /\ validateFormData negativePeriodForm
     = [lit "Orbital Period must be greater than 0"].
Proof.
  split; [eexists; vm_compute; repeat split|vm_compute; reflexivity].
Qed.

(** ** The form validator *)

Lemma checkField_grows (formData : Form.ExoplanetFormData)
    (errors : list jsstring) (f : NumericField) :
  exists more, checkField formData errors f = errors ++ more.
Proof.
  unfold checkField. destruct (isNaN _); [now eexists|].
  destruct (min f) as [m|]; [|exists []; now rewrite app_nil_r].
  destruct (ltb _ m); [now eexists|exists []; now rewrite app_nil_r].
Qed.

Lemma checkFields_grow (formData : Form.ExoplanetFormData)
    (fields : list NumericField) :
  forall errors : list jsstring,
  exists more,
    fold_left (checkField formData) fields errors = errors ++ more.
Proof.
  induction fields as [|f fields IH]; intros errors.
  - exists []. cbn. now rewrite app_nil_r.
  - cbn [fold_left].
    destruct (checkField_grows formData errors f) as (m1 & ->).
    destruct (IH (errors ++ m1)) as (m2 & ->).
    exists (m1 ++ m2). now rewrite app_assoc.
Qed.

Lemma ltb_not_NaN (x y : number) : ltb x y = true -> isNaN x = false.
Proof. destruct x; [reflexivity| reflexivity|discriminate|reflexivity]. Qed.

(** C6. The validator collects the errors of all the fields: a form whose
    name is empty after trimming and whose orbital period parses to a
    negative number gets both the error of the name and the error of the
    orbital period, two distinct strings. *)
Theorem validator_collects_all_errors (formData : Form.ExoplanetFormData) :
  trim (Form.name formData) = [] ->
  ltb (parseFloat (Form.orbitalPeriod formData)) zero = true ->
  let errors := validateFormData formData in
  In (lit "Name is required") errors
  /\ In (lit "Orbital Period must be greater than 0") errors
  /\ lit "Name is required" <> lit "Orbital Period must be greater than 0".
Proof.
  intros Hname Hneg. cbn zeta. unfold validateFormData.
  rewrite Hname. cbn [truthy]. unfold numericFields.
  match goal with
  | |- context [fold_left ?g (?f :: ?fs) ?errs] =>
      change (fold_left g (f :: fs) errs) with (fold_left g fs (g errs f));
      destruct (checkFields_grow formData fs (g errs f)) as (more & ->)
  end.
  unfold checkField. cbn [field label min app].
  rewrite (ltb_not_NaN _ _ Hneg), Hneg.
  split; [now left|]. split; [right; now left|discriminate].
Qed.

Lemma validator_collects_all_errors_witness :
  In (lit "Name is required") (validateFormData badForm)
  /\ In (lit "Orbital Period must be greater than 0")
        (validateFormData badForm).
Proof.
  destruct (validator_collects_all_errors badForm) as (H1 & H2 & _).
  - vm_compute. reflexivity.
  - vm_compute. reflexivity.
  - split; [exact H1|exact H2].
Defined.

(** C7. No minimum applies to the stellar magnitude: a form whose name is
    not blank, whose six other numeric fields are accepted and whose
    magnitude parses to a number, negative or not (and so in particular to
    a finite one such as -1.5), has no error; and whatever the other
    fields are, a magnitude that does not parse gets the error that it must
    be a valid number. *)
Theorem magnitude_has_no_minimum (formData : Form.ExoplanetFormData) :
  (truthy (trim (Form.name formData)) = true ->
   accepted (Form.orbitalPeriod formData) = true ->
   accepted (Form.transitDepth formData) = true ->
   accepted (Form.transitDuration formData) = true ->
   accepted (Form.signalToNoiseRatio formData) = true ->
   accepted (Form.stellarRadius formData) = true ->
   accepted (Form.stellarTemperature formData) = true ->
   isNaN (parseFloat (Form.stellarMagnitude formData)) = false ->
   validateFormData formData = [])
  /\ (isNaN (parseFloat (Form.stellarMagnitude formData)) = true ->
      In (lit "Stellar Magnitude must be a valid number")
         (validateFormData formData)).
Proof.
  split.
  - unfold accepted. intros Hname H1 H2 H3 H4 H5 H6 Hmag.
    apply andb_prop in H1, H2, H3, H4, H5, H6.
    destruct H1 as [N1 L1], H2 as [N2 L2], H3 as [N3 L3], H4 as [N4 L4],
             H5 as [N5 L5], H6 as [N6 L6].
    apply negb_true_iff in N1, N2, N3, N4, N5, N6, L1, L2, L3, L4, L5, L6.
    unfold validateFormData. rewrite Hname.
    unfold numericFields. cbn [fold_left]. unfold checkField.
    cbn [field label min].
    now rewrite N1, L1, N2, L2, N3, L3, N4, L4, N5, L5, N6, L6, Hmag.
  - intros Hmag. unfold validateFormData, numericFields.
    cbn [fold_left]. unfold checkField at 1. cbn [field label min].
    rewrite Hmag. apply in_or_app. right. now left.
Qed.

Lemma magnitude_has_no_minimum_witness :
  validateFormData (formWithMagnitude (lit "-1.5")) = []
  /\ In (lit "Stellar Magnitude must be a valid number")
        (validateFormData (formWithMagnitude (lit "bright"))).
Proof.
  destruct (magnitude_has_no_minimum (formWithMagnitude (lit "-1.5")))
    as [Hvalid _].
  destruct (magnitude_has_no_minimum (formWithMagnitude (lit "bright")))
    as [_ Herror].
  split.
  - apply Hvalid; vm_compute; reflexivity.
  - apply Herror. vm_compute. reflexivity.
Defined.

(** ** The export *)

Lemma baseRow_valid (includeResult : bool) (item : ExoplanetData) (t : Z) :
  dateAdded item = TimeValue t ->
  baseRow includeResult item = Normal (rowCells includeResult item).
Proof. intros E. unfold baseRow, rowCells. now rewrite E. Qed.

Lemma baseRow_inv (includeResult : bool) (item : ExoplanetData)
    (cells : list jsstring) :
  baseRow includeResult item = Normal cells ->
  cells = rowCells includeResult item
  /\ exists t, dateAdded item = TimeValue t.
Proof.
  unfold baseRow, rowCells. destruct (dateAdded item) as [|t]; cbn.
  - discriminate.
  - intros [= <-]. split; [reflexivity|now exists t].
Qed.

(** C8. Quote safety of the codec: whatever the name of a record is, with
    commas and quotes or without, the row the export writes for the record
    tokenizes back to the cells the export quoted, and the first token is
    the name, unchanged. *)
Theorem quote_safety (item : ExoplanetData) (includeResult : bool)
    (csv : jsstring) :
  exportToCSV [item] includeResult = Normal csv ->
  exists exportedRow,
    csv = encodeRow (headerCells includeResult) ++ [LF] ++ exportedRow
    /\ parseCSVLine exportedRow = rowCells includeResult item
    /\ cellAt (parseCSVLine exportedRow) 0 = Some (name item).
Proof.
  unfold exportToCSV. cbn [mapC].
  destruct (baseRow includeResult item) as [cells|err] eqn:E;
    cbn [bindC]; [|discriminate].
  intros [= <-]. apply baseRow_inv in E. destruct E as [-> _].
  exists (encodeRow (rowCells includeResult item)).
  split; [reflexivity|].
  rewrite parseCSVLine_encodeRow by discriminate.
  split; reflexivity.
Qed.

Lemma quote_safety_witness :
  exists csv exportedRow,
    exportToCSV [kepler442b] false = Normal csv
    /\ csv = encodeRow (headerCells false) ++ [LF] ++ exportedRow
    /\ cellAt (parseCSVLine exportedRow) 0 = Some quotedName.
Proof.
  assert (E : exportToCSV [kepler442b] false
              = Normal (encodeRow (headerCells false) ++ [LF]
                        ++ encodeRow (rowCells false kepler442b)))
    by reflexivity.
  destruct (quote_safety kepler442b false _ E) as (exportedRow & Hcsv & _ & H0).
  eexists _, exportedRow. split; [exact E|]. split; [exact Hcsv|exact H0].
Defined.

(** ** No line feed in what the export writes for numbers and dates *)

Lemma noLF_app (a b : jsstring) : noLF a -> noLF b -> noLF (a ++ b).
Proof. intros Ha Hb. apply Forall_app. now split. Qed.

Lemma digitChar_noLF (d : N) : digitChar d <> LF.
Proof. unfold digitChar, LF. lia. Qed.

Lemma digitsFuel_noLF (fuel : nat) :
  forall (n : N) (acc : jsstring),
    noLF acc -> noLF (digitsFuel fuel n acc).
Proof.
  induction fuel as [|fuel IH]; intros n acc Hacc; cbn [digitsFuel].
  - constructor; [apply digitChar_noLF|exact Hacc].
  - destruct (n <? 10)%N.
    + constructor; [apply digitChar_noLF|exact Hacc].
    + apply IH. constructor; [apply digitChar_noLF|exact Hacc].
Qed.

Lemma decimalDigits_noLF (n : N) : noLF (decimalDigits n).
Proof. apply digitsFuel_noLF. constructor. Qed.

Lemma zeros_noLF (n : Z) : noLF (zeros n).
Proof.
  unfold zeros. induction (Z.to_nat n) as [|k IH]; cbn [repeat].
  - constructor.
  - constructor; [discriminate|exact IH].
Qed.

Lemma layout_noLF (ds : jsstring) (n : Z) : noLF ds -> noLF (layout ds n).
Proof.
  intros Hds. unfold layout.
  destruct ((-6 <? n)%Z && (n <=? 21)%Z).
  - destruct (Z.of_nat (List.length ds) <=? n)%Z.
    + apply noLF_app; [exact Hds|apply zeros_noLF].
    + rewrite <- (firstn_skipn (Z.to_nat n) ds) in Hds.
      apply Forall_app in Hds. destruct Hds as [Hfirst Hrest].
      destruct (0 <? n)%Z.
      * apply noLF_app; [exact Hfirst|].
        apply noLF_app; [literal_noLF|exact Hrest].
      * apply noLF_app; [literal_noLF|].
        apply noLF_app; [apply zeros_noLF|].
        rewrite <- (firstn_skipn (Z.to_nat n) ds).
        now apply noLF_app.
  - apply noLF_app.
    + destruct ds as [|d [|d' more]]; [constructor|exact Hds|].
      inversion Hds as [|? ? Hd Hmore]; subst.
      constructor; [exact Hd|]. apply noLF_app; [literal_noLF|exact Hmore].
    + apply noLF_app; [literal_noLF|].
      apply noLF_app; [destruct (n - 1 <? 0)%Z; literal_noLF|].
      apply decimalDigits_noLF.
Qed.

Lemma toString_noLF (x : number) : noLF (toString x).
Proof.
  destruct x as [s|s| |s m e]; cbn [toString].
  - literal_noLF.
  - destruct s; literal_noLF.
  - literal_noLF.
  - unfold shortestDecimal.
    destruct (shortest _ _ _ _ _ _) as [digits n].
    apply noLF_app; [destruct s; [literal_noLF|constructor]|].
    apply layout_noLF, decimalDigits_noLF.
Qed.

Lemma pad_noLF (width : nat) (n : Z) : noLF (pad width n).
Proof.
  unfold pad. apply noLF_app; [|apply decimalDigits_noLF].
  induction (width - _)%nat as [|k IH]; cbn [repeat].
  - constructor.
  - constructor; [discriminate|exact IH].
Qed.

Lemma isoString_noLF (t : Z) : noLF (isoString t).
Proof.
  unfold isoString. destruct (civilFromDays _) as [[y m] d].
  repeat (apply noLF_app;
          [first [apply pad_noLF | literal_noLF | idtac]|]).
  - unfold isoYear. destruct ((0 <=? y)%Z && (y <=? 9999)%Z).
    + apply pad_noLF.
    + apply noLF_app; [destruct (y <? 0)%Z; literal_noLF|apply pad_noLF].
  - literal_noLF.
Qed.

Lemma isoString_not_empty (t : Z) : isoString t <> [].
Proof.
  unfold isoString. destruct (civilFromDays _) as [[y m] d].
  intros E. apply app_eq_nil in E. destruct E as [_ E]. discriminate E.
Qed.

(** The zero and the infinities read back from their text. *)
Lemma readsBack_zero_infinity :
  readsBack zero /\ readsBack (S754_infinity false)
  /\ readsBack (S754_infinity true).
Proof. repeat split; vm_compute; reflexivity. Qed.

(** ** Lines and rows of the exported text *)

Lemma doubleQuotes_noLF (cell : jsstring) :
  noLF cell -> noLF (doubleQuotes cell).
Proof.
  induction 1 as [|c cell Hc _ IH]; cbn [doubleQuotes]; [constructor|].
  destruct (c =? QUOTE)%N.
  - constructor; [discriminate|]. constructor; [discriminate|exact IH].
  - constructor; [exact Hc|exact IH].
Qed.

Lemma quoteCell_noLF (cell : jsstring) : noLF cell -> noLF (quoteCell cell).
Proof.
  intros H. unfold quoteCell. constructor; [discriminate|].
  apply noLF_app; [now apply doubleQuotes_noLF|].
  constructor; [discriminate|constructor].
Qed.

Lemma join_noLF (sep : jsstring) (xs : list jsstring) :
  noLF sep -> Forall noLF xs -> noLF (join sep xs).
Proof.
  intros Hsep. induction 1 as [|x xs Hx Hxs IH]; [constructor|].
  cbn [join]. destruct xs as [|y xs]; [exact Hx|].
  apply noLF_app; [exact Hx|]. apply noLF_app; [exact Hsep|exact IH].
Qed.

Lemma encodeRow_noLF (cells : list jsstring) :
  Forall noLF cells -> noLF (encodeRow cells).
Proof.
  intros H. unfold encodeRow. apply join_noLF.
  - constructor; [discriminate|constructor].
  - apply Forall_map. eapply Forall_impl; [|exact H].
    intros cell. apply quoteCell_noLF.
Qed.

Lemma split_app_LF (a b : jsstring) :
  noLF a -> split LF (a ++ LF :: b) = a :: split LF b.
Proof.
  induction 1 as [|c a Hc _ IH]; cbn [app split].
  - now rewrite N.eqb_refl.
  - apply N.eqb_neq in Hc. now rewrite Hc, IH.
Qed.

Lemma split_join (rows : list jsstring) :
  Forall noLF rows -> rows <> [] -> split LF (join [LF] rows) = rows.
Proof.
  induction 1 as [|x rows Hx Hrows IH]; [congruence|]. intros _.
  cbn [join]. destruct rows as [|y rows].
  - now apply split_noLF.
  - cbn [app]. rewrite split_app_LF by exact Hx.
    now rewrite IH by discriminate.
Qed.

Lemma join_quoted (sep : jsstring) (xs : list jsstring) :
  xs <> [] -> Forall quoted xs -> quoted (join sep xs).
Proof.
  intros Hne H. induction H as [|x xs Hx Hxs IH]; [congruence|].
  cbn [join]. destruct xs as [|y xs]; [exact Hx|].
  destruct Hx as [(a & ->) _].
  destruct (IH ltac:(discriminate)) as [_ (b & Eb)].
  split.
  - now eexists.
  - exists ((QUOTE :: a) ++ sep ++ b). rewrite Eb.
    now rewrite <- !app_assoc.
Qed.

Lemma encodeRow_quoted (cells : list jsstring) :
  cells <> [] -> quoted (encodeRow cells).
Proof.
  intros Hne. unfold encodeRow. apply join_quoted.
  - now destruct cells.
  - apply Forall_map, Forall_forall. intros cell _. unfold quoteCell.
    split; [now eexists|].
    exists (QUOTE :: doubleQuotes cell). reflexivity.
Qed.

Lemma trim_quoted (s : jsstring) : quoted s -> trim s = s.
Proof.
  intros [(a & Ea) (b & Eb)]. unfold trim.
  assert (E : trimStart s = s) by (now rewrite Ea).
  rewrite E. unfold trimEnd. rewrite Eb at 1.
  rewrite rev_app_distr. cbn [rev app trimStart].
  change (isWhiteSpace QUOTE) with false. cbn iota.
  change (QUOTE :: rev b) with (rev [QUOTE] ++ rev b).
  now rewrite <- rev_app_distr, rev_involutive.
Qed.

(** The lines of an exported text are the rows it was joined from. *)
Lemma linesOf_export (rows : list (list jsstring)) :
  rows <> [] ->
  Forall (fun cells => cells <> [] /\ Forall noLF cells) rows ->
  linesOf (join [LF] (List.map encodeRow rows)) = List.map encodeRow rows.
Proof.
  intros Hne Hrows. unfold linesOf. rewrite trim_quoted.
  - apply split_join; [|now destruct rows].
    apply Forall_map. eapply Forall_impl; [|exact Hrows].
    intros cells [_ H]. now apply encodeRow_noLF.
  - apply join_quoted; [now destruct rows|].
    apply Forall_map. eapply Forall_impl; [|exact Hrows].
    intros cells [H _]. now apply encodeRow_quoted.
Qed.

(** ** The round trip of one row *)

Lemma headerCells_noLF (includeResult : bool) :
  headerCells includeResult <> [] /\ Forall noLF (headerCells includeResult).
Proof.
  split; [destruct includeResult; discriminate|].
  destruct includeResult; vm_compute;
    repeat (constructor; try discriminate).
Qed.

Lemma rowCells_noLF (host : Host) (includeResult : bool)
    (item : ExoplanetData) :
  exportable host includeResult item ->
  rowCells includeResult item <> []
  /\ Forall noLF (rowCells includeResult item).
Proof.
  intros (Hname & _ & _ & (t & Et & _) & Hnotes & Hresult).
  split; [discriminate|]. unfold rowCells. rewrite Et. cbn [isoOf].
  apply Forall_app. split.
  - repeat (constructor; [first [exact Hname | apply toString_noLF
                                | apply isoString_noLF | idtac]|]).
    + destruct (notes item) as [s|]; [apply Hnotes|constructor].
    + constructor.
  - destruct includeResult; [|constructor].
    constructor; [now apply Hresult|constructor].
Qed.

Lemma orUndefined_orEmpty (x : option jsstring) :
  match x with Some s => s <> [] /\ noLF s | None => True end ->
  orUndefined (Some (orEmpty x)) = x.
Proof.
  destruct x as [[|c s]|]; cbn; [intros [H _]; congruence| |]; reflexivity.
Qed.

(** What the import reads from the row of an exportable record. *)
Lemma exported_row_reads_back (host : Host) (includeResult : bool)
    (item : ExoplanetData) :
  exportable host includeResult item ->
  let line := encodeRow (rowCells includeResult item) in
  validRow line = true
  /\ payloadOfRow line
     = {| p_name := name item;
          p_numbers := p_numbers (payload item);
          p_notes := notes item;
          p_result := None |}
  /\ forall lo hi e, datedBy host lo hi line e ->
                     dateAdded e = dateAdded item.
Proof.
  intros (Hname & Htrim & Hnum & (t & Et & Eparse) & Hnotes & Hresult).
  cbn zeta. unfold validRow, payloadOfRow, datedBy.
  rewrite parseCSVLine_encodeRow by discriminate.
  unfold payload in Hnum. cbn [p_numbers] in Hnum.
  rewrite !Forall_cons_iff in Hnum.
  destruct Hnum as ([N1 R1] & [N2 R2] & [N3 R3] & [N4 R4] & [N5 R5]
                    & [N6 R6] & [N7 R7] & _).
  assert (Enum : numbersOf (rowCells includeResult item)
                 = p_numbers (payload item)).
  { unfold numbersOf, rowCells, parseFloatAt, cellAt.
    cbn [List.map app nth_error payload p_numbers].
    now rewrite R1, R2, R3, R4, R5, R6, R7. }
  assert (E0 : cellAt (rowCells includeResult item) 0 = Some (name item))
    by reflexivity.
  assert (E8 : cellAt (rowCells includeResult item) 8 = Some (isoString t)).
  { unfold rowCells, cellAt. cbn [app nth_error]. now rewrite Et. }
  assert (E9 : cellAt (rowCells includeResult item) 9
               = Some (orEmpty (notes item))) by reflexivity.
  rewrite Enum, E0, E8, E9, Htrim.
  split; [|split].
  - unfold payload. cbn [p_numbers forallb]. rewrite N1, N2, N3, N4, N5, N6, N7.
    cbn [negb andb]. rewrite !andb_true_r.
    apply Nat.leb_le. unfold rowCells. rewrite length_app. cbn. lia.
  - cbn [orEmpty]. now rewrite orUndefined_orEmpty.
  - intros lo hi e. pose proof (isoString_not_empty t) as Hne.
    destruct (isoString t) as [|c s] eqn:Eiso; [congruence|].
    intros ->. now rewrite Eparse, Et.
Qed.

Lemma mapC_baseRow (host : Host) (includeResult : bool)
    (items : list ExoplanetData) :
  Forall (exportable host includeResult) items ->
  mapC (baseRow includeResult) items
  = Normal (List.map (rowCells includeResult) items).
Proof.
  induction 1 as [|item items Hitem _ IH]; [reflexivity|].
  cbn [mapC List.map]. destruct Hitem as (_ & _ & _ & (t & Et & _) & _).
  rewrite (baseRow_valid includeResult item t Et). cbn [bindC].
  now rewrite IH.
Qed.

Lemma failuresFrom_all_valid (lines : list jsstring) :
  Forall (fun line => validRow line = true) lines ->
  forall i, failuresFrom i lines = [].
Proof.
  induction 1 as [|line lines Hline _ IH]; intros i; [reflexivity|].
  cbn [failuresFrom]. unfold failureOf. rewrite Hline. apply IH.
Qed.

Lemma filter_all_valid (lines : list jsstring) :
  Forall (fun line => validRow line = true) lines ->
  filter validRow lines = lines.
Proof.
  induction 1 as [|line lines Hline _ IH]; [reflexivity|].
  cbn [filter]. now rewrite Hline, IH.
Qed.

Lemma Forall2_map_l {A B C} (f : A -> B) (R : B -> C -> Prop)
    (l : list A) (l' : list C) :
  Forall2 R (List.map f l) l' -> Forall2 (fun a c => R (f a) c) l l'.
Proof.
  revert l'. induction l as [|a l IH]; intros l' H; inversion H; subst.
  - constructor.
  - constructor; [assumption|now apply IH].
Qed.

Lemma Forall2_impl_Forall {A B} (P : A -> Prop) (R R' : A -> B -> Prop)
    (l : list A) (l' : list B) :
  (forall a b, P a -> R a b -> R' a b) ->
  Forall P l -> Forall2 R l l' -> Forall2 R' l l'.
Proof.
  intros Himpl HP H. induction H as [|a b l l' Hab _ IH]; [constructor|].
  inversion HP; subst. constructor; [now apply Himpl|now apply IH].
Qed.

(** ** The round trip *)

(** C1, as the specification words it, fails: the valid record
    [classified] carries a result, and the import, which never reads the
    Result column, gives it back without one, whether the column was
    exported or not. *)
Lemma roundTrips_fails :
  validRecord classified
  /\ forall includeResult,
       ~ roundTrips sampleHost [classified] includeResult start.
Proof.
  split.
  - unfold validRecord. repeat split; try (vm_compute; reflexivity).
    now eexists.
  - intros includeResult (csv & _ & _ & Hsame).
    destruct (importFromCSV_spec sampleHost csv start)
      as (new & w' & E & Hnew).
    rewrite E in Hsame. cbn [fst successful] in Hsame.
    inversion Hsame as [|item e items es (_ & _ & _ & _ & Hresult) Hrest];
      subst.
    inversion Hrest; subst.
    inversion Hnew as [|line e' lines es' [Hp _] _ Hlines]; subst.
    assert (Hnone : result e = None).
    { change (result e) with (p_result (payload e)). now rewrite Hp. }
    rewrite Hnone in Hresult. discriminate Hresult.
Qed.

(** C1, amended. For every list of records that have no line feed in
    their name, in their notes and, when the Result column is exported, in
    their result, whose name is not blank, whose numeric fields read back
    from their decimal text (none is NaN or -0), whose date is valid and is
    read back by the host from its timestamp, and whose notes are absent or
    not empty: the export succeeds, and the import of its text has no
    failure and gives back the records, in order, equal in name, in every
    numeric field, in date and in notes; the imported records have no
    result, and fresh identifiers. *)
Theorem export_import_roundtrip (host : Host) (items : list ExoplanetData)
    (includeResult : bool) (w : World) :
  Forall (exportable host includeResult) items ->
  exists csv,
    exportToCSV items includeResult = Normal csv
    /\ failed (fst (importFromCSV host csv w)) = []
    /\ Forall2 sameButIdAndResult items
         (successful (fst (importFromCSV host csv w))).
Proof.
  intros Hitems. unfold exportToCSV.
  rewrite (mapC_baseRow host includeResult items Hitems). cbn [bindC].
  eexists. split; [reflexivity|].
  fold (headerCells includeResult).
  set (rows := headerCells includeResult
               :: List.map (rowCells includeResult) items).
  assert (Hlines : linesOf (join [LF] (List.map encodeRow rows))
                   = List.map encodeRow rows).
  { apply linesOf_export; [discriminate|]. constructor.
    - apply headerCells_noLF.
    - apply Forall_map. eapply Forall_impl; [|exact Hitems].
      intros item. apply rowCells_noLF. }
  destruct (importFromCSV_spec host (join [LF] (List.map encodeRow rows)) w)
    as (new & w' & E & Hnew).
  rewrite E. cbn [fst successful failed].
  unfold dataLines in *. rewrite Hlines in *. subst rows.
  cbn [List.map tl] in *. rewrite List.map_map in *.
  assert (Hvalid : Forall (fun line => validRow line = true)
            (List.map (fun item => encodeRow (rowCells includeResult item))
               items)).
  { apply Forall_map. eapply Forall_impl; [|exact Hitems].
    intros item Hitem.
    now destruct (exported_row_reads_back host includeResult item Hitem). }
  split; [now apply failuresFrom_all_valid|].
  rewrite (filter_all_valid _ Hvalid) in Hnew.
  apply Forall2_map_l in Hnew.
  eapply Forall2_impl_Forall; [|exact Hitems|exact Hnew].
  intros item e Hitem [Hp Hd].
  destruct (exported_row_reads_back host includeResult item Hitem)
    as (_ & Hrow & Hdate).
  rewrite Hrow in Hp. unfold sameButIdAndResult.
  change (name e) with (p_name (payload e)).
  change (notes e) with (p_notes (payload e)).
  change (result e) with (p_result (payload e)).
  rewrite Hp. cbn [p_name p_numbers p_notes p_result].
  repeat split. exact (Hdate _ _ e Hd).
Qed.

Lemma exportable_kepler442b : exportable sampleHost true kepler442b.
Proof.
  unfold exportable. split; [literal_noLF|].
  split; [vm_compute; reflexivity|].
  split; [repeat constructor; vm_compute; reflexivity|].
  split; [eexists; split; [reflexivity|vm_compute; reflexivity]|].
  split; [split; [discriminate|literal_noLF]|].
  intros _. constructor.
Defined.

Lemma exportable_sirius : exportable sampleHost true sirius.
Proof.
  unfold exportable. split; [literal_noLF|].
  split; [vm_compute; reflexivity|].
  split; [repeat constructor; vm_compute; reflexivity|].
  split; [eexists; split; [reflexivity|vm_compute; reflexivity]|].
  split; [exact I|].
  intros _. literal_noLF.
Defined.

Lemma export_import_roundtrip_witness :
  Forall (exportable sampleHost true) [kepler442b; sirius]
  /\ exists csv,
       exportToCSV [kepler442b; sirius] true = Normal csv
       /\ failed (fst (importFromCSV sampleHost csv start)) = []
       /\ Forall2 sameButIdAndResult [kepler442b; sirius]
            (successful (fst (importFromCSV sampleHost csv start))).
Proof.
  assert (H : Forall (exportable sampleHost true) [kepler442b; sirius]).
  { constructor; [exact exportable_kepler442b|].
    constructor; [exact exportable_sirius|constructor]. }
  split; [exact H|].
  exact (export_import_roundtrip sampleHost [kepler442b; sirius] true
           start H).
Defined.

(** ** Why the round trip asks for more than validity

    Three more valid records that do not come back as they were, one for
    each further condition of [exportable]. *)

(** The import splits the text on line feeds before it tokenizes: a name
    on two lines gives two rows that are both too short. *)
Lemma line_feed_breaks_round_trip :
  validRecord twoLineName
  /\ ~ roundTrips sampleHost [twoLineName] false start.
Proof.
  split; [valid_by_computation|].
  intros (csv & E & Hfailed & _). vm_compute in E. injection E as <-.
  vm_compute in Hfailed. discriminate Hfailed.
Qed.

(** Notes that are the empty string are exported as an empty cell and
    come back absent. *)
Lemma empty_notes_break_round_trip :
  validRecord emptyNotes
  /\ ~ roundTrips sampleHost [emptyNotes] false start.
Proof.
  split; [valid_by_computation|].
  intros (csv & E & _ & Hsame). vm_compute in E. injection E as <-.
  vm_compute in Hsame.
  inversion Hsame as [|? ? ? ? (_ & _ & _ & Hnotes & _) _].
  discriminate Hnotes.
Qed.

(** A magnitude of -0 is written as 0 and comes back as +0. *)
Lemma minus_zero_breaks_round_trip :
  validRecord minusZero
  /\ ~ roundTrips sampleHost [minusZero] false start.
Proof.
  split; [valid_by_computation|].
  intros (csv & E & _ & Hsame). vm_compute in E. injection E as <-.
  vm_compute in Hsame.
  inversion Hsame as [|? ? ? ? (_ & Hnumbers & _) _].
  congruence.
Qed.

(** * Further properties of the code *)

(** ** The tokenizer, case by case *)

(** Induction over the runs of [parseLoop]: the end of the line, an
    escaped quote, a quote that opens or closes, a comma that separates, a
    code unit of content. *)
Lemma parseLoop_run
    (P : jsstring -> list jsstring -> jsstring -> bool -> list jsstring
         -> Prop) :
  (forall result current q, P [] result current q (result ++ [current])) ->
  (forall rest result current out,
      P rest result (current ++ [QUOTE]) true out ->
      P (QUOTE :: QUOTE :: rest) result current true out) ->
  (forall rest result current q out,
      (q = false \/ forall r, rest <> QUOTE :: r) ->
      P rest result current (negb q) out ->
      P (QUOTE :: rest) result current q out) ->
  (forall rest result current out,
      P rest (result ++ [current]) [] false out ->
      P (COMMA :: rest) result current false out) ->
  (forall c rest result current q out,
      c <> QUOTE -> (c <> COMMA \/ q = true) ->
      P rest result (current ++ [c]) q out ->
      P (c :: rest) result current q out) ->
  forall line result current q,
    P line result current q (parseLoop line result current q).
Proof.
  intros Hend Hescaped Htoggle Hcomma Hcontent line.
  assert (H : forall n line, (List.length line <= n)%nat ->
                forall result current q,
                  P line result current q (parseLoop line result current q)).
  { clear line. induction n as [|n IH]; intros line Hn result current q.
    - destruct line; [apply Hend|cbn in Hn; lia].
    - destruct line as [|c rest]; [apply Hend|]. cbn in Hn.
      cbn [parseLoop]. destruct (N.eqb_spec c QUOTE) as [->|Hc].
      + destruct q.
        * destruct rest as [|next rest'].
          -- apply Htoggle; [right; intros r; discriminate|].
             apply IH. cbn. lia.
          -- destruct (N.eqb_spec next QUOTE) as [->|Hnext].
             ++ apply Hescaped. apply IH. cbn in Hn. lia.
             ++ apply Htoggle; [right; intros r [= E _]; congruence|].
                apply IH. lia.
        * apply Htoggle; [now left|]. apply IH. lia.
      + destruct (N.eqb_spec c COMMA) as [->|Hcomma'].
        * destruct q; cbn [andb negb].
          -- apply Hcontent; [exact Hc|now right|]. apply IH. lia.
          -- apply Hcomma. apply IH. lia.
        * cbn [andb]. apply Hcontent; [exact Hc|now left|]. apply IH. lia. }
  intros result current q. now apply (H (List.length line)).
Qed.

Lemma commas_cons (c : char) (line : jsstring) :
  commas (c :: line)
  = if (c =? COMMA)%N then S (commas line) else commas line.
Proof.
  unfold commas. cbn [count_occ].
  destruct (N.eq_dec c COMMA) as [->|H].
  - now rewrite N.eqb_refl.
  - apply N.eqb_neq in H. now rewrite H.
Qed.

(** X1. The tokenizer returns at least one token, and at most one more
    than the line has commas. *)
Theorem parseCSVLine_token_count (line : jsstring) :
  (1 <= List.length (parseCSVLine line) <= 1 + commas line)%nat.
Proof.
  unfold parseCSVLine.
  change (1 <= List.length (parseLoop line [] [] false)
          <= 1 + commas line)%nat
    with ((fun line result (current : jsstring) (q : bool) out =>
             (List.length result + 1 <= List.length out
              <= List.length result + 1 + commas line)%nat)
            line (@nil jsstring) (@nil char) false
            (parseLoop line [] [] false)).
  apply parseLoop_run; clear line.
  - intros result current q. rewrite length_app. cbn. unfold commas. cbn. lia.
  - intros rest result current out IH. rewrite !commas_cons.
    change (QUOTE =? COMMA)%N with false. cbn iota. exact IH.
  - intros rest result current q out _ IH. rewrite commas_cons.
    change (QUOTE =? COMMA)%N with false. cbn iota. exact IH.
  - intros rest result current out IH. rewrite commas_cons, N.eqb_refl.
    rewrite length_app in IH. cbn in IH. lia.
  - intros c rest result current q out _ _ IH. rewrite commas_cons.
    destruct (c =? COMMA)%N; lia.
Qed.

(** X2. A data line with fewer than 7 commas, a blank line for one, can
    never reach 8 tokens: the import records it as a failure with the
    error Insufficient columns. *)
Theorem too_few_commas_rejected (host : Host) (csvContent : jsstring)
    (w : World) (i : nat) (line : jsstring) :
  (1 <= i)%nat ->
  nth_error (linesOf csvContent) i = Some line ->
  (commas line < 7)%nat ->
  In {| row := Z.of_nat i + 1;
        error := lit "Insufficient columns";
        data := Cells (parseCSVLine line) |}
     (failed (fst (importFromCSV host csvContent w))).
Proof.
  intros Hi E Hcommas.
  pose proof (parseCSVLine_token_count line) as Hcount.
  destruct (importFromCSV_spec host csvContent w) as (new & w' & Er & _).
  rewrite Er. cbn [fst failed].
  apply failuresFrom_In. exists (i - 1)%nat, line.
  split; [now apply dataLines_nth|].
  replace (1 + (i - 1))%nat with i by lia.
  unfold failureOf, validRow.
  replace (8 <=? List.length (parseCSVLine line))%nat with false
    by (symmetry; apply Nat.leb_gt; lia).
  replace (List.length (parseCSVLine line) <? 8)%nat with true
    by (symmetry; apply Nat.ltb_lt; lia).
  reflexivity.
Qed.

Lemma too_few_commas_rejected_witness :
  In {| row := 3; error := lit "Insufficient columns"; data := Cells [[]] |}
     (failed (fst (importFromCSV sampleHost
                     (text [headerLine; "a,b,c,d,e"; ""; "x"]%string) start))).
Proof.
  apply (too_few_commas_rejected sampleHost
           (text [headerLine; "a,b,c,d,e"; ""; "x"]%string) start 2 []).
  - lia.
  - vm_compute. reflexivity.
  - vm_compute. lia.
Defined.

(** ** Lines without quotes *)

Lemma split_not_nil (sep : char) (s : jsstring) : split sep s <> [].
Proof.
  destruct s as [|c s]; cbn [split]; [discriminate|].
  destruct (c =? sep)%N; [discriminate|].
  destruct (split sep s); discriminate.
Qed.

Lemma join_split (sep : char) (s : jsstring) :
  join [sep] (split sep s) = s.
Proof.
  induction s as [|c s IH]; [reflexivity|]. cbn [split].
  destruct (N.eqb_spec c sep) as [->|Hc].
  - pose proof (split_not_nil sep s) as Hne.
    destruct (split sep s) as [|p ps]; [congruence|].
    change (join [sep] ([] :: p :: ps))
      with ([] ++ [sep] ++ join [sep] (p :: ps)).
    now rewrite IH.
  - destruct (split sep s) as [|p ps] eqn:E.
    + now destruct (split_not_nil sep s).
    + destruct ps as [|p' ps].
      * cbn [join] in IH |- *. now rewrite IH.
      * change (join [sep] ((c :: p) :: p' :: ps))
          with (c :: (p ++ [sep] ++ join [sep] (p' :: ps))).
        change (join [sep] (p :: p' :: ps))
          with (p ++ [sep] ++ join [sep] (p' :: ps)) in IH.
        now rewrite IH.
Qed.

Lemma split_without (sep : char) (s : jsstring) :
  Forall (fun c => c <> sep) s -> split sep s = [s].
Proof.
  induction 1 as [|c s Hc _ IH]; [reflexivity|]. cbn [split].
  apply N.eqb_neq in Hc. now rewrite Hc, IH.
Qed.

Lemma split_app_sep (sep : char) (a b : jsstring) :
  Forall (fun c => c <> sep) a ->
  split sep (a ++ sep :: b) = a :: split sep b.
Proof.
  induction 1 as [|c a Hc _ IH]; cbn [app split].
  - now rewrite N.eqb_refl.
  - apply N.eqb_neq in Hc. now rewrite Hc, IH.
Qed.

Lemma split_join_sep (sep : char) (cells : list jsstring) :
  Forall (Forall (fun c => c <> sep)) cells -> cells <> [] ->
  split sep (join [sep] cells) = cells.
Proof.
  induction 1 as [|x cells Hx Hcells IH]; [intros H; now destruct H|].
  intros _. cbn [join]. destruct cells as [|y cells].
  - now apply split_without.
  - cbn [app]. rewrite split_app_sep by exact Hx.
    now rewrite IH by discriminate.
Qed.

(** The loop over a stretch without quotes, outside quotes: the stretch is
    cut at its commas; its last piece stays open. *)
Lemma parseLoop_unquoted_app (pre tail : jsstring) :
  noQuote pre ->
  forall (result : list jsstring) (current : jsstring),
    parseLoop (pre ++ tail) result current false
    = parseLoop tail
        (result ++ removelast (prefixFirst current (split COMMA pre)))
        (last (prefixFirst current (split COMMA pre)) [])
        false.
Proof.
  induction 1 as [|c pre Hc _ IH]; intros result current.
  - cbn. now rewrite !app_nil_r.
  - cbn [app parseLoop split]. apply N.eqb_neq in Hc. rewrite Hc.
    pose proof (split_not_nil COMMA pre) as Hne.
    destruct (N.eqb_spec c COMMA) as [->|Hcomma]; cbn [andb negb].
    + rewrite IH. destruct (split COMMA pre) as [|p ps]; [congruence|].
      cbn [prefixFirst app removelast last].
      now rewrite app_nil_r, <- app_assoc.
    + rewrite IH. destruct (split COMMA pre) as [|p ps]; [congruence|].
      cbn [prefixFirst]. rewrite <- app_assoc. cbn [app].
      destruct ps; reflexivity.
Qed.

Lemma prefixFirst_nil (tokens : list jsstring) :
  tokens <> [] -> prefixFirst [] tokens = tokens.
Proof. destruct tokens; [congruence|reflexivity]. Qed.

Lemma parseCSVLine_unquoted_split (line : jsstring) :
  noQuote line -> parseCSVLine line = split COMMA line.
Proof.
  intros H. unfold parseCSVLine.
  rewrite <- (app_nil_r line) at 1.
  rewrite (parseLoop_unquoted_app line [] H). cbn [parseLoop app].
  rewrite prefixFirst_nil by apply split_not_nil.
  symmetry. apply app_removelast_last, split_not_nil.
Qed.

(** X3. On a line without a quote the tokenizer is the plain split on
    commas: joining its tokens with commas gives the line back, and
    unquoted cells that hold no comma are read back as they were
    written. *)
Theorem parseCSVLine_unquoted (line : jsstring) (cells : list jsstring) :
  (noQuote line ->
   parseCSVLine line = split COMMA line
   /\ join [COMMA] (parseCSVLine line) = line)
  /\ (cells <> [] -> Forall noQuote cells -> Forall noComma cells ->
      parseCSVLine (join [COMMA] cells) = cells).
Proof.
  split.
  - intros H. rewrite (parseCSVLine_unquoted_split line H).
    split; [reflexivity|apply join_split].
  - intros Hne Hq Hc. rewrite parseCSVLine_unquoted_split.
    + now apply split_join_sep.
    + clear Hne Hc. induction Hq as [|x cells Hx Hcells IH]; [constructor|].
      cbn [join]. destruct cells as [|y cells]; [exact Hx|].
      apply Forall_app. split; [exact Hx|].
      constructor; [discriminate|exact IH].
Qed.

Lemma parseCSVLine_unquoted_witness :
  join [COMMA] (parseCSVLine (lit "HD 40307 g,197.8,1200.5,,7.17"))
  = lit "HD 40307 g,197.8,1200.5,,7.17"
  /\ parseCSVLine (lit "HD 40307 g,197.8,1200.5,,7.17")
     = [lit "HD 40307 g"; lit "197.8"; lit "1200.5"; []; lit "7.17"].
Proof.
  destruct (parseCSVLine_unquoted (lit "HD 40307 g,197.8,1200.5,,7.17")
              [lit "HD 40307 g"; lit "197.8"; lit "1200.5"; []; lit "7.17"])
    as [Hline Hcells].
  split.
  - apply Hline. vm_compute. repeat constructor; discriminate.
  - apply Hcells; [discriminate| |];
      repeat constructor; discriminate.
Defined.

(** ** Quotes that are not closed, quotes inside a field *)

Lemma parseLoop_in_quotes (rest : jsstring) :
  noQuote rest ->
  forall (result : list jsstring) (current : jsstring),
    parseLoop rest result current true = result ++ [current ++ rest].
Proof.
  induction 1 as [|c rest Hc _ IH]; intros result current.
  - cbn. now rewrite app_nil_r.
  - cbn [parseLoop]. apply N.eqb_neq in Hc. rewrite Hc.
    rewrite andb_false_r, IH. now rewrite <- app_assoc.
Qed.

(** X4. A quote that is never closed swallows the rest of the line: all
    that follows it, commas included, joins the token in which the quote
    was opened, and no token comes after. *)
Theorem unclosed_quote_swallows_line (pre body : jsstring) :
  noQuote pre -> noQuote body ->
  parseCSVLine (pre ++ QUOTE :: body) = extendLast (split COMMA pre) body.
Proof.
  intros Hpre Hbody. unfold parseCSVLine, extendLast.
  rewrite (parseLoop_unquoted_app pre (QUOTE :: body) Hpre).
  rewrite prefixFirst_nil by apply split_not_nil.
  cbn [parseLoop]. rewrite N.eqb_refl. cbn [negb app].
  now rewrite (parseLoop_in_quotes body Hbody).
Qed.

Lemma unclosed_quote_swallows_line_witness :
  parseCSVLine unclosedQuoteLine
  = [lit "Kepler-442b"; lit "112.3"; lit "420,5.6,15.2,0.6,4402,14.76"].
Proof.
  apply (unclosed_quote_swallows_line (lit "Kepler-442b,112.3,")
           (lit "420,5.6,15.2,0.6,4402,14.76"));
    vm_compute; repeat constructor; discriminate.
Defined.

Lemma doubleQuotes_noQuote (cell : jsstring) :
  noQuote cell -> doubleQuotes cell = cell.
Proof.
  induction 1 as [|c cell Hc _ IH]; [reflexivity|]. cbn [doubleQuotes].
  apply N.eqb_neq in Hc. now rewrite Hc, IH.
Qed.

(** X5. A quote opens a quoted stretch anywhere in a field, not only at
    its start: the two quotes are dropped and what stands between them,
    commas included, stays in the field. *)
Theorem quote_inside_field (a b c : jsstring) :
  noQuote a -> noComma a -> noQuote b -> noQuote c -> noComma c ->
  parseCSVLine (a ++ QUOTE :: b ++ QUOTE :: c) = [a ++ b ++ c].
Proof.
  intros Ha Hac Hb Hc Hcc. unfold parseCSVLine.
  rewrite (parseLoop_unquoted_app a _ Ha).
  rewrite (split_without COMMA a Hac).
  cbn [prefixFirst removelast last app parseLoop].
  rewrite N.eqb_refl. cbn [negb].
  rewrite <- (doubleQuotes_noQuote b Hb) at 1.
  rewrite parseLoop_quoted.
  - rewrite <- (app_nil_r c) at 1.
    rewrite (parseLoop_unquoted_app c [] Hc).
    rewrite (split_without COMMA c Hcc).
    cbn [prefixFirst removelast last app parseLoop].
    now rewrite <- app_assoc.
  - intros x r ->. now inversion Hc.
Qed.

Lemma quote_inside_field_witness :
  parseCSVLine inchesLine = [lit "Scope 8, f/10 SCT"].
Proof.
  apply (quote_inside_field (lit "Scope 8") (lit ", f/10") (lit " SCT"));
    vm_compute; repeat constructor; discriminate.
Defined.

(** ** A code unit at the end of the line *)

Lemma removelast_snoc {A} (l : list A) (x : A) : removelast (l ++ [x]) = l.
Proof. rewrite removelast_app by discriminate. cbn. apply app_nil_r. Qed.

Lemma last_snoc {A} (l : list A) (x d : A) : last (l ++ [x]) d = x.
Proof. apply last_last. Qed.

Lemma parseLoop_snoc (c : char) :
  c <> QUOTE -> c <> COMMA ->
  forall line result current q,
    parseLoop (line ++ [c]) result current q
    = appendToLast (parseLoop line result current q) c.
Proof.
  intros Hq Hc line result current q.
  change ((fun line result current q out =>
             parseLoop (line ++ [c]) result current q = appendToLast out c)
            line result current q (parseLoop line result current q)).
  apply parseLoop_run; clear line result current q.
  - intros result current q. unfold appendToLast.
    rewrite removelast_snoc, last_snoc. cbn [app parseLoop].
    apply N.eqb_neq in Hq, Hc. rewrite Hq, Hc. reflexivity.
  - intros rest result current out IH. cbn [app parseLoop].
    rewrite !N.eqb_refl. exact IH.
  - intros rest result current q out Hrest IH. cbn [app parseLoop].
    rewrite N.eqb_refl. destruct q; [|exact IH].
    destruct Hrest as [E|Hrest]; [discriminate|].
    destruct rest as [|x rest]; cbn [app].
    + apply N.eqb_neq in Hq. rewrite Hq. exact IH.
    + destruct (N.eqb_spec x QUOTE) as [->|_]; [|exact IH].
      now destruct (Hrest rest).
  - intros rest result current out IH. cbn [app parseLoop].
    change (COMMA =? QUOTE)%N with false. rewrite N.eqb_refl. exact IH.
  - intros x rest result current q out Hx Hxq IH. cbn [app parseLoop].
    apply N.eqb_neq in Hx. rewrite Hx.
    replace ((x =? COMMA)%N && negb q) with false; [exact IH|].
    destruct Hxq as [Hxc| ->]; [|now rewrite andb_false_r].
    apply N.eqb_neq in Hxc. now rewrite Hxc.
Qed.

(** X6. A code unit added at the end of a line, a carriage return left by
    a Windows line ending for one, lands at the end of the last token,
    whether that token was quoted or not; the other tokens do not
    change. *)
Theorem trailing_code_unit_joins_last_token (line : jsstring) (c : char) :
  c <> QUOTE -> c <> COMMA ->
  parseCSVLine (line ++ [c]) = appendToLast (parseCSVLine line) c.
Proof. intros Hq Hc. unfold parseCSVLine. now apply parseLoop_snoc. Qed.

Lemma trailing_code_unit_joins_last_token_witness :
  parseCSVLine (encodeRow [lit "Kepler-442b"; lit "ok"] ++ [13%N])
  = [lit "Kepler-442b"; lit "ok" ++ [13%N]].
Proof.
  refine (eq_trans
            (trailing_code_unit_joins_last_token
               (encodeRow [lit "Kepler-442b"; lit "ok"]) 13%N _ _) _);
    [discriminate|discriminate|].
  vm_compute. reflexivity.
Defined.

(** ** What the import keeps of every record *)

Lemma Forall2_In_r {A B} (R : A -> B -> Prop) (l : list A) (l' : list B)
    (b : B) :
  Forall2 R l l' -> In b l' -> exists a, In a l /\ R a b.
Proof.
  induction 1 as [|x y l l' Hxy _ IH]; intros Hin; [destruct Hin|].
  destruct Hin as [<-|Hin].
  - exists x. split; [now left|exact Hxy].
  - destruct (IH Hin) as (a & Ha & Hab). exists a. split; [now right|exact Hab].
Qed.

Lemma importFromCSV_wellImported (host : Host) (csvContent : jsstring)
    (w : World) :
  Forall wellImported (successful (fst (importFromCSV host csvContent w))).
Proof.
  destruct (importFromCSV_spec host csvContent w) as (new & w' & E & Hnew).
  rewrite E. cbn [fst successful]. apply Forall_forall. intros e He.
  destruct (Forall2_In_r _ _ _ _ Hnew He) as (line & Hline & Hp & _).
  apply filter_In in Hline. destruct Hline as [_ Hv].
  unfold validRow in Hv. apply andb_prop in Hv. destruct Hv as [Hv Hname].
  apply andb_prop in Hv. destruct Hv as [_ Hnum].
  unfold wellImported.
  change (name e) with (p_name (payload e)).
  change (result e) with (p_result (payload e)).
  change (notes e) with (p_notes (payload e)).
  rewrite Hp. unfold payloadOfRow. cbn [p_name p_numbers p_result p_notes].
  destruct (cellAt (parseCSVLine line) 0) as [cell0|]; [|discriminate].
  repeat split; [exact Hname|exact Hnum|].
  destruct (cellAt (parseCSVLine line) 9) as [[|c s]|]; cbn; discriminate.
Qed.

(** X7. Whatever the file, every record the import accepts has a name
    that is not blank and seven numeric fields none of which is NaN; it
    never carries a result, and its notes are absent or not empty. *)
Theorem imported_records_well_formed (host : Host) (csvContent : jsstring)
    (w : World) :
  Forall wellImported (successful (fst (importFromCSV host csvContent w))).
Proof. apply importFromCSV_wellImported. Qed.

(** ** The identifiers of the imported records *)

Section Identifiers.

Variable host : Host.

Lemma tryRow_uuid (i : nat) (line : jsstring) (w : World) :
  (uuidCalls w <= uuidCalls (snd (tryRow host i line w))
   <= S (uuidCalls w))%nat
  /\ forall e, fst (tryRow host i line w) = Normal (Accepted e) ->
       id e = uuidAt host (uuidCalls w)
       /\ uuidCalls (snd (tryRow host i line w)) = S (uuidCalls w).
Proof.
  unfold tryRow.
  destruct (List.length (parseCSVLine line) <? 8)%nat.
  - cbn. split; [lia|discriminate].
  - unfold bind, randomUUID.
    destruct (dateOf_spec host (parseCSVLine line)
                {| uuidCalls := S (uuidCalls w);
                   clockReads := clockReads w |})
      as (d & w' & -> & Hu & _).
    cbn [uuidCalls] in Hu.
    destruct (existsb isNaN _).
    + cbn. split; [lia|discriminate].
    + destruct (cellAt (parseCSVLine line) 0) as [cell0|].
      * destruct (negb (truthy (trim cell0))); cbn.
        -- split; [lia|discriminate].
        -- split; [lia|]. intros e [= <-]. cbn. split; [reflexivity|lia].
      * cbn. split; [lia|discriminate].
Qed.

Lemma importLoop_ids (lines : list jsstring) :
  forall (i : nat) (acc : ImportResult) (w : World),
  exists ks,
    List.map id (successful (fst (importLoop host i lines acc w)))
    = List.map id (successful acc) ++ List.map (uuidAt host) ks
    /\ NoDup ks
    /\ Forall (fun k => uuidCalls w <= k < uuidCalls w + List.length lines)%nat
         ks.
Proof.
  induction lines as [|line rest IH]; intros i acc w.
  - exists []. cbn. rewrite app_nil_r. repeat split; constructor.
  - cbn [importLoop]. unfold bind at 1. unfold importRow, bind, ret.
    pose proof (tryRow_uuid i line w) as [Hw He].
    destruct (tryRow host i line w) as [c w1]. cbn [fst snd] in Hw, He.
    assert (Hweaken :
      forall ks,
        Forall (fun k => uuidCalls w1 <= k
                         < uuidCalls w1 + List.length rest)%nat ks ->
        Forall (fun k => uuidCalls w <= k
                         < uuidCalls w + List.length (line :: rest))%nat ks).
    { intros ks. apply Forall_impl. intros k Hk. cbn [List.length]. lia. }
    destruct c as [[e|f]|err].
    + destruct (He e eq_refl) as [Hid Hw1].
      destruct (IH (S i) {| successful := successful acc ++ [e];
                            failed := failed acc |} w1)
        as (ks & E & Hnd & Hks).
      exists (uuidCalls w :: ks). rewrite E. cbn [successful].
      rewrite List.map_app, <- app_assoc. cbn [List.map app]. rewrite Hid.
      split; [reflexivity|]. split.
      * constructor; [|exact Hnd]. intros Hin.
        rewrite Forall_forall in Hks. specialize (Hks _ Hin). lia.
      * constructor; [cbn [List.length]; lia|now apply Hweaken].
    + destruct (IH (S i) {| successful := successful acc;
                            failed := failed acc ++ [f] |} w1)
        as (ks & E & Hnd & Hks).
      exists ks. rewrite E. cbn [successful].
      split; [reflexivity|]. split; [exact Hnd|now apply Hweaken].
    + destruct (IH (S i)
                  {| successful := successful acc;
                     failed := failed acc ++
                       [ {| row := Z.of_nat i + 1;
                            error := lit "Parse error: " ++ err;
                            data := Line line |} ] |} w1)
        as (ks & E & Hnd & Hks).
      exists ks. rewrite E. cbn [successful].
      split; [reflexivity|]. split; [exact Hnd|now apply Hweaken].
Qed.

Lemma NoDup_map_In {A B} (f : A -> B) (l : list A) (x y : A) :
  NoDup (List.map f l) -> In x l -> In y l -> f x = f y -> x = y.
Proof.
  induction l as [|a l IH]; intros Hnd Hx Hy E; [destruct Hx|].
  cbn in Hnd. apply NoDup_cons_iff in Hnd. destruct Hnd as [Ha Hnd].
  destruct Hx as [<-|Hx], Hy as [<-|Hy]; [reflexivity| | |now apply IH].
  - exfalso. apply Ha. rewrite E. now apply in_map.
  - exfalso. apply Ha. rewrite <- E. now apply in_map.
Qed.

(** The identifiers of the records of an import are some of the
    identifiers the host hands out during it, without repetition of an
    index. *)
Lemma imported_ids (csvContent : jsstring) (w : World) :
  exists ks,
    List.map id (successful (fst (importFromCSV host csvContent w)))
    = List.map (uuidAt host) ks
    /\ NoDup ks
    /\ incl ks (seq (uuidCalls w) (List.length (dataLines csvContent))).
Proof.
  unfold importFromCSV.
  destruct (importLoop_ids (tl (split LF (trim csvContent))) 1
              {| successful := []; failed := [] |} w)
    as (ks & E & Hnd & Hks).
  exists ks. split; [exact E|]. split; [exact Hnd|].
  intros k Hk. rewrite Forall_forall in Hks. specialize (Hks k Hk).
  apply in_seq. unfold dataLines, linesOf. lia.
Qed.

Lemma NoDup_map_sub {A B} (f : A -> B) (ks l : list A) :
  NoDup ks -> incl ks l -> NoDup (List.map f l) -> NoDup (List.map f ks).
Proof.
  intros Hks Hincl Hl. apply NoDup_map_NoDup_ForallPairs; [|exact Hks].
  intros x y Hx Hy E. apply (NoDup_map_In f l); auto.
Qed.

End Identifiers.

(** X8. When the identifiers the host hands out during an import, at most
    one per data line, are pairwise distinct, the records of the import
    have pairwise distinct identifiers. *)
Theorem imported_ids_distinct (host : Host) (csvContent : jsstring)
    (w : World) :
  NoDup (nextUuids host w (List.length (dataLines csvContent))) ->
  NoDup (List.map id (successful (fst (importFromCSV host csvContent w)))).
Proof.
  intros Hnd. destruct (imported_ids host csvContent w)
    as (ks & -> & Hks & Hincl).
  exact (NoDup_map_sub (uuidAt host) ks _ Hks Hincl Hnd).
Qed.

Lemma imported_ids_distinct_witness :
  NoDup (List.map id
           (successful (fst (importFromCSV sampleHost partialFile start)))).
Proof.
  apply imported_ids_distinct. vm_compute.
  repeat (constructor; [cbn; intuition discriminate|]). constructor.
Defined.

(** ** The collection of the page *)

Lemma Str_eqb_eq (a b : jsstring) : Str.eqb a b = true <-> a = b.
Proof. unfold Str.eqb. destruct (list_eq_dec N.eq_dec a b); split; congruence. Qed.

Lemma Str_eqb_neq (a b : jsstring) : Str.eqb a b = false <-> a <> b.
Proof. unfold Str.eqb. destruct (list_eq_dec N.eq_dec a b); split; congruence. Qed.

Lemma delete_absent (id' : jsstring) (prev : list ExoplanetData) :
  ~ In id' (List.map id prev) ->
  App.handleDeleteExoplanet true id' prev = prev.
Proof.
  unfold App.handleDeleteExoplanet.
  induction prev as [|e prev IH]; intros Hn; [reflexivity|].
  cbn [filter]. replace (Str.eqb (id e) id') with false.
  - cbn [negb]. rewrite IH; [reflexivity|]. intros Hin. apply Hn. now right.
  - symmetry. apply Str_eqb_neq. intros E. apply Hn. now left.
Qed.

Lemma delete_app (id' : jsstring) (a b : list ExoplanetData) :
  App.handleDeleteExoplanet true id' (a ++ b)
  = App.handleDeleteExoplanet true id' a
    ++ App.handleDeleteExoplanet true id' b.
Proof. unfold App.handleDeleteExoplanet. apply filter_app. Qed.

(** X9. In a collection whose identifiers are pairwise distinct, a
    confirmed deletion removes the record that carries the identifier and
    keeps the records before and after it, in their order; the deletion of
    an identifier that no record carries, and a deletion that is not
    confirmed, change nothing. *)
Theorem delete_removes_the_record (a b : list ExoplanetData)
    (e : ExoplanetData) (id' : jsstring) (prev : list ExoplanetData) :
  (NoDup (List.map id (a ++ e :: b)) ->
   App.handleDeleteExoplanet true (id e) (a ++ e :: b) = a ++ b)
  /\ (~ In id' (List.map id prev) ->
      App.handleDeleteExoplanet true id' prev = prev)
  /\ App.handleDeleteExoplanet false id' prev = prev.
Proof.
  split; [|split; [apply delete_absent|reflexivity]].
  intros Hnd. rewrite List.map_app in Hnd. cbn [List.map] in Hnd.
  apply NoDup_remove in Hnd. destruct Hnd as [_ Hn].
  rewrite delete_app.
  change (e :: b) with ([e] ++ b). rewrite delete_app.
  rewrite (delete_absent (id e) a), (delete_absent (id e) b).
  - unfold App.handleDeleteExoplanet. cbn [filter].
    replace (Str.eqb (id e) (id e)) with true
      by (symmetry; now apply Str_eqb_eq).
    reflexivity.
  - intros Hin. apply Hn. apply in_or_app. now right.
  - intros Hin. apply Hn. apply in_or_app. now left.
Qed.

Lemma delete_removes_the_record_witness :
  App.handleDeleteExoplanet true (id sirius) [kepler442b; sirius; emptyNotes]
  = [kepler442b; emptyNotes].
Proof.
  destruct (delete_removes_the_record [kepler442b] [emptyNotes] sirius
              (id sirius) []) as (H & _).
  apply H. vm_compute.
  repeat (constructor; [cbn; intuition discriminate|]). constructor.
Defined.

(** X10. Adding a record whose identifier is new to the collection and
    then deleting that identifier gives the collection back. *)
Theorem add_then_delete (prev : list ExoplanetData)
    (newExoplanet : ExoplanetData) :
  ~ In (id newExoplanet) (List.map id prev) ->
  App.handleDeleteExoplanet true (id newExoplanet)
    (App.handleAddExoplanet prev newExoplanet)
  = prev.
Proof.
  intros Hnew. unfold App.handleAddExoplanet. rewrite delete_app.
  rewrite (delete_absent _ prev Hnew).
  unfold App.handleDeleteExoplanet. cbn [filter].
  replace (Str.eqb (id newExoplanet) (id newExoplanet)) with true
    by (symmetry; now apply Str_eqb_eq).
  apply app_nil_r.
Qed.

Lemma add_then_delete_witness :
  App.handleDeleteExoplanet true (id sirius)
    (App.handleAddExoplanet [kepler442b; emptyNotes] sirius)
  = [kepler442b; emptyNotes].
Proof.
  apply add_then_delete. vm_compute. intuition discriminate.
Defined.

(** X11. After a file is loaded the collection is the collection before
    it followed by the records of the import, in order: the records that
    were there are kept as they were, whatever rows failed.  When the
    identifiers of the collection and those the host hands out during the
    import are pairwise distinct, so are the identifiers of the collection
    after it. *)
Theorem file_load_extends_collection (host : Host) (csvContent : jsstring)
    (prev : list ExoplanetData) (w : World) :
  let r := fst (ExoplanetDataManager.importFromCSV host csvContent w) in
  let after := fst (fst (DataImportExport.fileLoaded host csvContent prev w)) in
  after = prev ++ successful r
  /\ snd (fst (DataImportExport.fileLoaded host csvContent prev w)) = r
  /\ List.length after
     = (List.length prev
        + List.length (filter validRow (dataLines csvContent)))%nat
  /\ (NoDup (List.map id prev
             ++ nextUuids host w (List.length (dataLines csvContent))) ->
      NoDup (List.map id after)).
Proof.
  cbn zeta. unfold DataImportExport.fileLoaded, bind, ret.
  destruct (imported_ids host csvContent w) as (ks & Eids & Hks & Hincl).
  destruct (importFromCSV_spec host csvContent w) as (new & w' & E & Hnew).
  rewrite E in *. cbn [fst snd successful] in *.
  assert (Eafter : (if (0 <? List.length new)%nat
                    then App.handleImportExoplanets prev new else prev)
                   = prev ++ new).
  { destruct new; [cbn; now rewrite app_nil_r|reflexivity]. }
  rewrite Eafter. split; [reflexivity|]. split; [reflexivity|]. split.
  - rewrite length_app. f_equal. symmetry. eapply Forall2_length, Hnew.
  - intros Hnd. rewrite List.map_app, Eids.
    apply NoDup_app.
    + now apply NoDup_app_remove_r in Hnd.
    + apply NoDup_app_remove_l in Hnd.
      exact (NoDup_map_sub (uuidAt host) ks _ Hks Hincl Hnd).
    + intros x Hx Hin. apply in_map_iff in Hin.
      destruct Hin as (k & <- & Hk).
      assert (Hin2 : In (uuidAt host k)
                       (nextUuids host w (List.length (dataLines csvContent)))).
      { unfold nextUuids. apply in_map. now apply Hincl. }
      clear - Hnd Hx Hin2.
      induction (List.map id prev) as [|y l IH]; [destruct Hx|].
      cbn [app] in Hnd. apply NoDup_cons_iff in Hnd.
      destruct Hnd as [Hy Hnd]. destruct Hx as [->|Hx].
      * apply Hy. apply in_or_app. now right.
      * now apply IH.
Qed.

Lemma file_load_extends_collection_witness :
  NoDup (List.map id
           (fst (fst (DataImportExport.fileLoaded sampleHost partialFile
                        [kepler442b; sirius] start)))).
Proof.
  destruct (file_load_extends_collection sampleHost partialFile
              [kepler442b; sirius] start) as (_ & _ & _ & H).
  apply H. vm_compute.
  repeat (constructor; [cbn; intuition discriminate|]). constructor.
Defined.

(** ** The export as a whole *)

Lemma mapC_throws {A B} (f : A -> Completion B) (xs : list A) :
  Exists (fun x => exists err, f x = Throw err) xs ->
  exists err, mapC f xs = Throw err.
Proof.
  induction 1 as [x xs (err & E)|x xs _ (err & IH)]; cbn [mapC].
  - rewrite E. now exists err.
  - destruct (f x) as [y|err']; cbn [bindC]; [|now eexists].
    rewrite IH. now exists err.
Qed.

Lemma mapC_normal {A B} (f : A -> Completion B) (g : A -> B)
    (xs : list A) :
  Forall (fun x => f x = Normal (g x)) xs ->
  mapC f xs = Normal (List.map g xs).
Proof.
  induction 1 as [|x xs E _ IH]; [reflexivity|].
  cbn [mapC List.map]. now rewrite E, IH.
Qed.

Lemma export_normal (items : list ExoplanetData) (includeResult : bool) :
  Forall (fun item => exists t, dateAdded item = TimeValue t) items ->
  exportToCSV items includeResult
  = Normal (join [LF]
              (List.map encodeRow
                 (headerCells includeResult
                  :: List.map (rowCells includeResult) items))).
Proof.
  intros H. unfold exportToCSV.
  rewrite (mapC_normal (baseRow includeResult) (rowCells includeResult)).
  - reflexivity.
  - eapply Forall_impl; [|exact H]. intros item (t & Et).
    now apply baseRow_valid with (t := t).
Qed.

Lemma export_throws (items : list ExoplanetData) (includeResult : bool) :
  Exists (fun item => dateAdded item = InvalidDate) items ->
  exists err, exportToCSV items includeResult = Throw err.
Proof.
  intros H. unfold exportToCSV.
  destruct (mapC_throws (baseRow includeResult) items) as (err & E).
  - eapply Exists_impl; [|exact H]. intros item Ed.
    unfold baseRow. rewrite Ed. cbn. now eexists.
  - rewrite E. now exists err.
Qed.

(** X12. The export is all or nothing: it returns a text when every
    record has a valid date, and it throws, writing nothing, as soon as one
    record of the collection has an Invalid Date. *)
Theorem export_all_or_nothing (items : list ExoplanetData)
    (includeResult : bool) :
  (Forall (fun item => exists t, dateAdded item = TimeValue t) items ->
   exists csv, exportToCSV items includeResult = Normal csv)
  /\ (Exists (fun item => dateAdded item = InvalidDate) items ->
      exists err, exportToCSV items includeResult = Throw err).
Proof.
  split.
  - intros H. rewrite (export_normal items includeResult H). now eexists.
  - apply export_throws.
Qed.

Lemma export_all_or_nothing_witness :
  (exists csv, exportToCSV [kepler442b; sirius] true = Normal csv)
  /\ exists err,
       exportToCSV [kepler442b; plain (lit "TOI-700 d") zero None;
                    {| id := id sirius; name := name sirius;
                       orbitalPeriod := zero; transitDepth := zero;
                       transitDuration := zero; signalToNoiseRatio := zero;
                       stellarProperties := stellarProperties sirius;
                       dateAdded := InvalidDate;
                       notes := None; result := None |}] false
       = Throw err.
Proof.
  split.
  - apply (export_all_or_nothing [kepler442b; sirius] true).
    repeat constructor; now eexists.
  - apply export_all_or_nothing.
    apply Exists_cons_tl, Exists_cons_tl, Exists_cons_hd. reflexivity.
Defined.

(** X13. The import does not check the date: a valid row whose token 9 is
    not empty and is no date for the host is accepted with an Invalid
    Date, and the export of the records of that import then throws. *)
Theorem import_then_export_throws (host : Host) (csvContent : jsstring)
    (w : World) (i : nat) (line token : jsstring) (includeResult : bool) :
  (1 <= i)%nat ->
  nth_error (linesOf csvContent) i = Some line ->
  validRow line = true ->
  cellAt (parseCSVLine line) 8 = Some token -> token <> [] ->
  dateParse host token = InvalidDate ->
  let r := fst (importFromCSV host csvContent w) in
  (exists e, In e (successful r) /\ payload e = payloadOfRow line
             /\ dateAdded e = InvalidDate)
  /\ exists err, exportToCSV (successful r) includeResult = Throw err.
Proof.
  intros Hi E Hv Htoken Hne Hbad. cbn zeta.
  destruct (importFromCSV_spec host csvContent w) as (new & w' & Er & Hnew).
  rewrite Er. cbn [fst successful].
  assert (Hin : In line (filter validRow (dataLines csvContent))).
  { apply filter_In. split; [|exact Hv].
    eapply nth_error_In. now apply dataLines_nth with (i := i). }
  destruct (Forall2_In_l _ _ _ _ Hnew Hin) as (e & He & Hp & Hd).
  assert (Hdate : dateAdded e = InvalidDate).
  { unfold datedBy in Hd. rewrite Htoken in Hd.
    destruct token; [congruence|]. now rewrite Hd. }
  split; [now exists e|].
  apply export_throws. apply Exists_exists. now exists e.
Qed.

Lemma import_then_export_throws_witness :
  exists err,
    exportToCSV (successful (fst (importFromCSV sampleHost badDateFile start)))
      false
    = Throw err.
Proof.
  apply (import_then_export_throws sampleHost badDateFile start 1
           (lit "Kepler-442b,112.3,420,5.6,15.2,0.6,4402,14.76,yesterday,seen")
           (lit "yesterday") false).
  - lia.
  - vm_compute. reflexivity.
  - vm_compute. reflexivity.
  - vm_compute. reflexivity.
  - discriminate.
  - vm_compute. reflexivity.
Defined.

Lemma rowCells_singleLine (includeResult : bool) (item : ExoplanetData)
    (t : Z) :
  dateAdded item = TimeValue t -> singleLine includeResult item ->
  rowCells includeResult item <> []
  /\ Forall noLF (rowCells includeResult item).
Proof.
  intros Et (Hname & Hnotes & Hresult).
  split; [discriminate|]. unfold rowCells. rewrite Et. cbn [isoOf].
  apply Forall_app. split.
  - repeat (constructor; [first [exact Hname | apply toString_noLF
                                | apply isoString_noLF | exact Hnotes]|]).
    constructor.
  - destruct includeResult; [|constructor].
    constructor; [now apply Hresult|constructor].
Qed.

Lemma rowCells_length (includeResult : bool) (item : ExoplanetData) :
  List.length (rowCells includeResult item) = columns includeResult.
Proof. unfold rowCells. rewrite length_app. now destruct includeResult. Qed.

(** X14. An exported text starts and ends with a quote, so the trim of
    the import leaves it as it is, even when its last cell ends in white
    space.  When no name, notes or exported result holds a line feed, the
    text has one line for the header and one per record, in order, and
    every line, the header included, tokenizes to 10 cells, 11 with the
    Result column. *)
Theorem export_shape (items : list ExoplanetData) (includeResult : bool)
    (csv : jsstring) :
  exportToCSV items includeResult = Normal csv ->
  trim csv = csv
  /\ (Forall (singleLine includeResult) items ->
      List.map parseCSVLine (linesOf csv)
      = headerCells includeResult
        :: List.map (rowCells includeResult) items
      /\ Forall (fun line =>
                   List.length (parseCSVLine line) = columns includeResult)
           (linesOf csv)).
Proof.
  intros E.
  assert (Hdates : Forall (fun item => exists t, dateAdded item = TimeValue t)
                     items).
  { apply Forall_forall. intros item Hin.
    destruct (dateAdded item) as [|t] eqn:Ed; [|now exists t].
    destruct (export_throws items includeResult) as (err & Eerr).
    - apply Exists_exists. now exists item.
    - congruence. }
  set (rows := headerCells includeResult
               :: List.map (rowCells includeResult) items).
  assert (Ecsv : csv = join [LF] (List.map encodeRow rows)).
  { pose proof (export_normal items includeResult Hdates) as E'.
    fold rows in E'. congruence. }
  rewrite Ecsv. clear E Ecsv csv.
  split.
  - apply trim_quoted, join_quoted; [discriminate|].
    apply Forall_map, Forall_forall. intros cells Hin.
    apply encodeRow_quoted. destruct Hin as [<-|Hin].
    + apply headerCells_noLF.
    + apply in_map_iff in Hin. destruct Hin as (item & <- & _). discriminate.
  - intros Hsingle.
    assert (Hrows : Forall (fun cells => cells <> [] /\ Forall noLF cells)
                      rows).
    { constructor; [apply headerCells_noLF|].
      apply Forall_map, Forall_forall. intros item Hin.
      rewrite Forall_forall in Hdates, Hsingle.
      destruct (Hdates item Hin) as (t & Et).
      exact (rowCells_singleLine includeResult item t Et (Hsingle item Hin)). }
    rewrite (linesOf_export rows ltac:(discriminate) Hrows).
    assert (Hparse : List.map parseCSVLine (List.map encodeRow rows) = rows).
    { rewrite List.map_map. rewrite <- (List.map_id rows) at 2.
      apply map_ext_in. intros cells Hin.
      rewrite Forall_forall in Hrows.
      now apply parseCSVLine_encodeRow, Hrows. }
    split; [exact Hparse|].
    apply Forall_forall. intros line Hin.
    apply in_map_iff in Hin. destruct Hin as (cells & <- & Hin).
    rewrite Forall_forall in Hrows.
    rewrite parseCSVLine_encodeRow by now apply Hrows.
    destruct Hin as [<-|Hin].
    + now destruct includeResult.
    + apply in_map_iff in Hin. destruct Hin as (item & <- & _).
      apply rowCells_length.
Qed.

Lemma export_shape_witness :
  exists csv,
    exportToCSV [kepler442b; sirius] true = Normal csv
    /\ List.length (linesOf csv) = 3%nat
    /\ Forall (fun line => List.length (parseCSVLine line) = 11%nat)
         (linesOf csv).
Proof.
  assert (E : exportToCSV [kepler442b; sirius] true
              = Normal (join [LF]
                          (List.map encodeRow
                             (headerCells true
                              :: List.map (rowCells true)
                                   [kepler442b; sirius]))))
    by (apply export_normal; repeat constructor; now eexists).
  destruct (export_shape [kepler442b; sirius] true _ E) as [_ H].
  destruct H as [Hlines Hcolumns].
  - repeat constructor; try literal_noLF; intros _; literal_noLF.
  - eexists. split; [exact E|]. split; [|exact Hcolumns].
    rewrite <- (length_map parseCSVLine), Hlines. reflexivity.
Defined.

(** ** The validator, rule by rule *)

Lemma checkField_fieldError (formData : Form.ExoplanetFormData)
    (errors : list jsstring) (f : NumericField) :
  checkField formData errors f
  = errors ++ fieldError f (field f formData).
Proof.
  unfold checkField, fieldError. destruct (isNaN _); [reflexivity|].
  destruct (min f) as [m|]; [|now rewrite app_nil_r].
  destruct (ltb _ m); [reflexivity|now rewrite app_nil_r].
Qed.

Lemma checkFields_fieldError (formData : Form.ExoplanetFormData)
    (fields : list NumericField) :
  forall errors,
    fold_left (checkField formData) fields errors
    = errors ++ flat_map (fun f => fieldError f (field f formData)) fields.
Proof.
  induction fields as [|f fields IH]; intros errors; cbn [fold_left flat_map].
  - now rewrite app_nil_r.
  - now rewrite IH, checkField_fieldError, <- app_assoc.
Qed.

Lemma fieldError_length (f : NumericField) (value : jsstring) :
  (List.length (fieldError f value) <= 1)%nat.
Proof.
  unfold fieldError. destruct (isNaN _); [cbn; lia|].
  destruct (min f) as [m|]; [|cbn; lia]. destruct (ltb _ m); cbn; lia.
Qed.

(** X15. The errors of the validator are those of its eight rules one
    after the other, the name first and then the numeric fields in their
    fixed order; each rule gives at most one error, which depends on the
    text of its own field alone, so that there are never more than eight
    errors. *)
Theorem validator_rule_by_rule (formData : Form.ExoplanetFormData) :
  validateFormData formData
  = nameError (Form.name formData)
    ++ flat_map (fun f => fieldError f (field f formData)) numericFields
  /\ (List.length (validateFormData formData) <= 8)%nat.
Proof.
  assert (E : validateFormData formData
              = nameError (Form.name formData)
                ++ flat_map (fun f => fieldError f (field f formData))
                     numericFields).
  { unfold validateFormData. now rewrite checkFields_fieldError. }
  split; [exact E|]. rewrite E, length_app.
  assert (Hname : (List.length (nameError (Form.name formData)) <= 1)%nat).
  { unfold nameError. destruct (truthy _); cbn; lia. }
  unfold numericFields. cbn [flat_map]. rewrite !length_app.
  repeat match goal with
         | |- context [List.length (fieldError ?f ?v)] =>
             let H := fresh in
             pose proof (fieldError_length f v) as H;
             generalize dependent (List.length (fieldError f v)); intros
         end.
  cbn [List.length]. lia.
Qed.

Lemma fieldError_accepted (f : NumericField) (value : jsstring) :
  min f = Some zero -> (fieldError f value = [] <-> accepted value = true).
Proof.
  intros Hmin. unfold fieldError, accepted. rewrite Hmin.
  destruct (isNaN (parseFloat value)); cbn [negb andb];
    [split; discriminate|].
  destruct (ltb (parseFloat value) zero); cbn [negb]; split;
    congruence || discriminate.
Qed.

Lemma fieldError_unbounded (f : NumericField) (value : jsstring) :
  min f = None ->
  (fieldError f value = [] <-> isNaN (parseFloat value) = false).
Proof.
  intros Hmin. unfold fieldError. rewrite Hmin.
  destruct (isNaN (parseFloat value)); split; congruence || discriminate.
Qed.

Lemma nameError_nil (name' : jsstring) :
  nameError name' = [] <-> truthy (trim name') = true.
Proof.
  unfold nameError. destruct (truthy (trim name')); split;
    congruence || discriminate.
Qed.

Lemma app_nil_iff {A} (a b : list A) : a ++ b = [] <-> a = [] /\ b = [].
Proof.
  split; [apply app_eq_nil|]. intros [-> ->]. reflexivity.
Qed.

Lemma validateFormData_nil (formData : Form.ExoplanetFormData) :
  validateFormData formData = []
  <-> truthy (trim (Form.name formData)) = true
      /\ forallb accepted (boundedFields formData) = true
      /\ isNaN (parseFloat (Form.stellarMagnitude formData)) = false.
Proof.
  destruct (validator_rule_by_rule formData) as [-> _].
  unfold numericFields, boundedFields. cbn [flat_map forallb].
  rewrite !app_nil_iff, !andb_true_iff, nameError_nil.
  rewrite !fieldError_accepted by reflexivity.
  rewrite fieldError_unbounded by reflexivity.
  cbn [field]. intuition.
Qed.

(** X16. The validator returns no error exactly when the name is not
    blank, each of the six fields with a minimum parses to a number that is
    not below zero, and the magnitude parses to a number. *)
Theorem validator_accepts_iff (formData : Form.ExoplanetFormData) :
  validateFormData formData = []
  <-> truthy (trim (Form.name formData)) = true
      /\ forallb accepted (boundedFields formData) = true
      /\ isNaN (parseFloat (Form.stellarMagnitude formData)) = false.
Proof. apply validateFormData_nil. Qed.

Lemma validator_accepts_iff_witness :
  validateFormData (formWithMagnitude (lit "-1.5")) = []
  /\ validateFormData badForm <> [].
Proof.
  split.
  - apply (validator_accepts_iff (formWithMagnitude (lit "-1.5"))).
    repeat split; vm_compute; reflexivity.
  - intros E. apply (validator_accepts_iff badForm) in E.
    destruct E as (E & _). vm_compute in E. discriminate E.
Defined.

(** ** From a validated form to a record *)

Lemma trimStart_head (s : jsstring) :
  trimStart s = []
  \/ exists c r, trimStart s = c :: r /\ isWhiteSpace c = false.
Proof.
  induction s as [|c s IH]; [now left|]. cbn [trimStart].
  destruct (isWhiteSpace c) eqn:E; [exact IH|]. right. now exists c, s.
Qed.

Lemma trimStart_idem (s : jsstring) : trimStart (trimStart s) = trimStart s.
Proof.
  destruct (trimStart_head s) as [->|(c & r & -> & Hc)]; [reflexivity|].
  cbn [trimStart]. now rewrite Hc.
Qed.

Lemma trimStart_snoc (l : jsstring) (c : char) :
  isWhiteSpace c = false -> exists x, trimStart (l ++ [c]) = x ++ [c].
Proof.
  intros Hc. induction l as [|a l IH]; cbn [app trimStart].
  - rewrite Hc. now exists [].
  - destruct (isWhiteSpace a); [exact IH|]. now exists (a :: l).
Qed.

Lemma trim_idem (s : jsstring) : trim (trim s) = trim s.
Proof.
  unfold trim at 1.
  assert (Hstart : trimStart (trim s) = trim s).
  { unfold trim, trimEnd.
    destruct (trimStart_head s) as [->|(c & r & -> & Hc)]; [reflexivity|].
    cbn [rev]. destruct (trimStart_snoc (rev r) c Hc) as (x & ->).
    rewrite rev_app_distr. cbn [rev app trimStart]. now rewrite Hc. }
  rewrite Hstart. unfold trim, trimEnd.
  now rewrite rev_involutive, trimStart_idem.
Qed.

Lemma accepted_not_below_zero (value : jsstring) :
  accepted value = true -> SFleb zero (parseFloat value) = true.
Proof.
  unfold accepted. destruct (parseFloat value) as [s|s| |s m e]; cbn.
  - reflexivity.
  - now destruct s.
  - discriminate.
  - now destruct s.
Qed.

Lemma accepted_not_negative (value : jsstring) :
  accepted value = true -> negb (ltb (parseFloat value) zero) = true.
Proof. unfold accepted. intros H. now apply andb_prop in H. Qed.

(** X17. A form that passes the validator is promoted to a valid record:
    its name is the trimmed name of the form and is not blank, none of its
    six bounded fields is below zero, its magnitude is a number, its date
    is the reading of the clock, its identifier the next one of the host;
    it has no result, and its notes are absent or not empty. *)
Theorem validated_form_gives_valid_record (host : Host)
    (formData : Form.ExoplanetFormData) (w : World) :
  validateFormData formData = [] ->
  let e := fst (formDataToExoplanet host formData w) in
  validRecord e
  /\ nonNegativeFields e = true
  /\ name e = trim (Form.name formData)
  /\ id e = uuidAt host (uuidCalls w)
  /\ dateAdded e = TimeValue (timeAt host (clockReads w))
  /\ result e = None
  /\ notes e <> Some [].
Proof.
  intros Hvalid. apply validateFormData_nil in Hvalid.
  destruct Hvalid as (Hname & Hfields & Hmag).
  unfold boundedFields in Hfields. cbn [forallb] in Hfields.
  rewrite !andb_true_iff in Hfields.
  destruct Hfields as (H1 & H2 & H3 & H4 & H5 & H6 & _).
  cbn zeta. unfold formDataToExoplanet, bind, ret, randomUUID, newDate.
  cbn [fst uuidCalls clockReads].
  split; [|split; [|repeat split]].
  - unfold validRecord.
    cbn [name orbitalPeriod transitDepth transitDuration signalToNoiseRatio
         stellarProperties radius temperature magnitude dateAdded forallb].
    rewrite trim_idem.
    rewrite !accepted_not_below_zero by assumption.
    repeat split; [exact Hname|exact Hmag|now eexists].
  - unfold nonNegativeFields.
    cbn [orbitalPeriod transitDepth transitDuration signalToNoiseRatio
         stellarProperties radius temperature forallb].
    now rewrite !accepted_not_negative by assumption.
  - cbn [notes]. unfold trimmedNotes.
    destruct (Form.notes formData) as [s|]; cbn [option_map orUndefined];
      [|discriminate].
    destruct (trim s); cbn; discriminate.
Qed.

Lemma validated_form_gives_valid_record_witness :
  validRecord (fst (formDataToExoplanet sampleHost edgeForm start))
  /\ notes (fst (formDataToExoplanet sampleHost edgeForm start)) = None.
Proof.
  destruct (validated_form_gives_valid_record sampleHost edgeForm start)
    as (H & _).
  - vm_compute. reflexivity.
  - split; [exact H|vm_compute; reflexivity].
Defined.

(** X18. The minimum of the six bounded fields is not strict and asks for
    no finite value: a form whose name is not blank and whose magnitude
    parses passes the validator when each bounded field parses to a zero of
    either sign or to +Infinity, although the error of those fields reads
    that the value must be greater than 0. *)
Theorem zero_and_infinity_pass (formData : Form.ExoplanetFormData) :
  truthy (trim (Form.name formData)) = true ->
  Forall (fun value =>
            (exists s, parseFloat value = S754_zero s)
            \/ parseFloat value = S754_infinity false)
         (boundedFields formData) ->
  isNaN (parseFloat (Form.stellarMagnitude formData)) = false ->
  validateFormData formData = [].
Proof.
  intros Hname Hfields Hmag. apply validateFormData_nil.
  split; [exact Hname|]. split; [|exact Hmag].
  apply forallb_forall. intros value Hin.
  rewrite Forall_forall in Hfields.
  unfold accepted.
  destruct (Hfields value Hin) as [(s & ->)| ->]; reflexivity.
Qed.

Lemma zero_and_infinity_pass_witness : validateFormData edgeForm = [].
Proof.
  apply zero_and_infinity_pass.
  - vm_compute. reflexivity.
  - unfold edgeForm, boundedFields.
    cbn [Form.orbitalPeriod Form.transitDepth Form.transitDuration
         Form.signalToNoiseRatio Form.stellarRadius Form.stellarTemperature].
    repeat (apply Forall_cons;
            [first [ left; eexists; vm_compute; reflexivity
                   | right; vm_compute; reflexivity ]|]).
    apply Forall_nil.
  - vm_compute. reflexivity.
Defined.

(** ** Text after a number *)

Lemma dot_match {A} (c : char) (rest : jsstring) (f : jsstring -> A)
    (g : A) :
  c <> 46%N ->
  match c :: rest with
  | 46%N :: r => f r
  | _ => g
  end = g.
Proof.
  intros Hc. destruct c as [|p]; [reflexivity|].
  repeat (destruct p as [p|p|]; try reflexivity).
  congruence.
Qed.

Lemma isDigit_cases (d : char) :
  isDigit d = true ->
  In d [48; 49; 50; 51; 52; 53; 54; 55; 56; 57]%N.
Proof.
  unfold isDigit. intros H. apply andb_prop in H. destruct H as [Hlo Hhi].
  apply N.leb_le in Hlo, Hhi. cbn [In].
  assert (d = 48 \/ d = 49 \/ d = 50 \/ d = 51 \/ d = 52 \/ d = 53 \/ d = 54
          \/ d = 55 \/ d = 56 \/ d = 57)%N by lia.
  intuition.
Qed.

Lemma spanDigits_app (ds : jsstring) (tail : jsstring) :
  Forall (fun d => isDigit d = true) ds ->
  match tail with [] => True | c :: _ => isDigit c = false end ->
  spanDigits (ds ++ tail) = (List.map (fun d => (d - 48)%N) ds, tail).
Proof.
  intros Hds Htail. induction Hds as [|d ds Hd _ IH]; cbn [app List.map].
  - destruct tail as [|c rest]; [reflexivity|]. cbn [spanDigits].
    now rewrite Htail.
  - cbn [spanDigits]. now rewrite Hd, IH.
Qed.

Lemma parseFloat_digits (d : char) (ds tail : jsstring) :
  Forall (fun x => isDigit x = true) (d :: ds) ->
  match tail with
  | [] => True
  | c :: _ => isDigit c = false /\ c <> 46%N /\ c <> 101%N /\ c <> 69%N
  end ->
  parseFloat ((d :: ds) ++ tail)
  = roundDecimal false
      (decimalValue (List.map (fun x => (x - 48)%N) (d :: ds))) 0.
Proof.
  intros Hds Htail. unfold parseFloat.
  assert (Hhead : trimStart ((d :: ds) ++ tail) = (d :: ds) ++ tail
                  /\ spanSign ((d :: ds) ++ tail) = (false, (d :: ds) ++ tail)
                  /\ startsWith (lit "Infinity") ((d :: ds) ++ tail) = None).
  { inversion Hds as [|? ? Hd _]; subst.
    apply isDigit_cases in Hd. cbn [In] in Hd.
    repeat (destruct Hd as [<-|Hd]; [repeat split; reflexivity|]).
    destruct Hd. }
  destruct Hhead as (-> & -> & ->).
  rewrite (spanDigits_app (d :: ds) tail Hds)
    by (destruct tail; [exact I|apply Htail]).
  destruct tail as [|c rest].
  - cbn [exponentPart List.length]. rewrite app_nil_r. reflexivity.
  - destruct Htail as (_ & Hdot & He & HE).
    rewrite (dot_match c rest _ _ Hdot). rewrite app_nil_r.
    unfold exponentPart. apply N.eqb_neq in He, HE. rewrite He, HE.
    reflexivity.
Qed.

(** X19. What follows a whole number in a field is ignored: when a text
    of digits is followed by a code unit that is no digit, no point and no
    exponent mark, and then by anything, the validator gives the field the
    verdict of the digits alone, and the number that is stored for the
    field is the number of the digits alone. *)
Theorem text_after_number_is_ignored (f : NumericField) (d c : char)
    (ds rest : jsstring) :
  Forall (fun x => isDigit x = true) (d :: ds) ->
  isDigit c = false -> c <> 46%N -> c <> 101%N -> c <> 69%N ->
  parseFloat ((d :: ds) ++ c :: rest) = parseFloat (d :: ds)
  /\ fieldError f ((d :: ds) ++ c :: rest) = fieldError f (d :: ds).
Proof.
  intros Hds Hc Hdot He HE.
  assert (E : parseFloat ((d :: ds) ++ c :: rest) = parseFloat (d :: ds)).
  { rewrite (parseFloat_digits d ds (c :: rest) Hds) by now repeat split.
    rewrite <- (app_nil_r (d :: ds)) at 2.
    now rewrite (parseFloat_digits d ds [] Hds I). }
  split; [exact E|]. unfold fieldError. now rewrite E.
Qed.

Lemma text_after_number_is_ignored_witness :
  parseFloat (lit "420ppm") = parseFloat (lit "420").
Proof.
  apply (text_after_number_is_ignored
           {| field := Form.transitDepth; label := lit "Transit Depth";
              min := Some zero |}
           52%N 112%N (lit "20") (lit "pm"));
    try discriminate; try reflexivity.
  repeat constructor.
Defined.

(** ** What the analysis service is sent *)

Lemma dates_valid_or_not (items : list ExoplanetData) :
  Forall (fun item => exists t, dateAdded item = TimeValue t) items
  \/ Exists (fun item => dateAdded item = InvalidDate) items.
Proof.
  induction items as [|item items [IH|IH]].
  - left. constructor.
  - destruct (dateAdded item) as [|t] eqn:E.
    + right. now apply Exists_cons_hd.
    + left. constructor; [now exists t|exact IH].
  - right. now apply Exists_cons_tl.
Qed.

(** X20. The tensor of the local model has one row of exactly seven
    numbers per record, in the order of the records; for the records of an
    import, whatever the file, none of these numbers is NaN. *)
Theorem tensor_of_imported_records (host : Host) (csvContent : jsstring)
    (w : World) (items : list ExoplanetData) :
  List.length (AIModelService.prepareInputTensor items) = List.length items
  /\ Forall (fun row => List.length row = 7%nat)
       (AIModelService.prepareInputTensor items)
  /\ Forall (fun row => forallb (fun x => negb (isNaN x)) row = true)
       (AIModelService.prepareInputTensor
          (successful (fst (importFromCSV host csvContent w)))).
Proof.
  unfold AIModelService.prepareInputTensor. split; [apply length_map|].
  split.
  - apply Forall_map, Forall_forall. reflexivity.
  - apply Forall_map.
    eapply Forall_impl; [|apply importFromCSV_wellImported].
    intros e (_ & H & _). exact H.
Qed.

Lemma formatDataForModel_normal (items : list ExoplanetData) :
  Forall (fun item => exists t, dateAdded item = TimeValue t) items ->
  exists inputs,
    AIModelService.formatDataForModel items = Normal inputs
    /\ Forall2 matchesRow items inputs.
Proof.
  induction 1 as [|item items (t & Et) _ (inputs & E & IH)].
  - exists []. split; [reflexivity|constructor].
  - unfold AIModelService.formatDataForModel in *. cbn [mapC].
    rewrite Et. cbn [toISOString bindC]. rewrite E. cbn [bindC].
    eexists. split; [reflexivity|]. constructor; [|exact IH].
    unfold matchesRow, rowCells, cellAt. cbn. rewrite Et. repeat split.
Qed.

(** X21. The model input and the export fail on the same collections, and
    agree where they succeed: formatting the records for the model throws
    exactly when the export throws, that is when a record has an Invalid
    Date; otherwise the model is sent one entry per record, in order, with
    the name and the seven numbers of the record and, for the date and the
    notes, the very text of the cells of the export. *)
Theorem model_input_matches_export (items : list ExoplanetData)
    (includeResult : bool) :
  ((exists err, AIModelService.formatDataForModel items = Throw err)
   <-> (exists err, exportToCSV items includeResult = Throw err))
  /\ (forall inputs,
        AIModelService.formatDataForModel items = Normal inputs ->
        Forall2 matchesRow items inputs).
Proof.
  destruct (dates_valid_or_not items) as [Hvalid|Hbad].
  - destruct (formatDataForModel_normal items Hvalid) as (inputs & E & Hm).
    rewrite E, (export_normal items includeResult Hvalid). split.
    + split; intros (err & H); discriminate H.
    + intros inputs' [= <-]. exact Hm.
  - destruct (export_throws items includeResult Hbad) as (err & E).
    destruct (mapC_throws
                (fun planet =>
                   bindC (toISOString (dateAdded planet)) (fun iso =>
                   Normal
                     {| ModelInput.name := name planet;
                        ModelInput.orbital_period := orbitalPeriod planet;
                        ModelInput.transit_depth := transitDepth planet;
                        ModelInput.transit_duration := transitDuration planet;
                        ModelInput.signal_to_noise_ratio :=
                          signalToNoiseRatio planet;
                        ModelInput.stellar_radius :=
                          radius (stellarProperties planet);
                        ModelInput.stellar_temperature :=
                          temperature (stellarProperties planet);
                        ModelInput.stellar_magnitude :=
                          magnitude (stellarProperties planet);
                        ModelInput.date_added := iso;
                        ModelInput.notes := orEmpty (notes planet) |}))
                items) as (err' & E').
    { eapply Exists_impl; [|exact Hbad]. intros item Ed.
      rewrite Ed. cbn. now eexists. }
    unfold AIModelService.formatDataForModel. rewrite E, E'. split.
    + split; intros _; now eexists.
    + discriminate.
Qed.

Lemma model_input_matches_export_witness :
  exists inputs,
    AIModelService.formatDataForModel [kepler442b; sirius] = Normal inputs
    /\ Forall2 matchesRow [kepler442b; sirius] inputs.
Proof.
  destruct (model_input_matches_export [kepler442b; sirius] false)
    as [_ H].
  eexists. split; [reflexivity|]. apply H. reflexivity.
Defined.

(** ** The panel *)

(** X22. The template the panel offers for download is accepted by the
    import as it is, on every host: its two rows give two records with the
    names, numbers and notes of the template and dates read by the host
    from the timestamps of the template, and no row fails. *)
Theorem template_imports_cleanly (host : Host) (w : World) :
  let r := fst (importFromCSV host DataImportExport.templateData w) in
  failed r = []
  /\ List.map payload (successful r) = templatePayloads
  /\ List.map dateAdded (successful r)
     = [ dateParse host (lit "2024-01-01T00:00:00.000Z");
         dateParse host (lit "2024-01-02T00:00:00.000Z") ].
Proof.
  cbn zeta.
  destruct (importFromCSV_spec host DataImportExport.templateData w)
    as (new & w' & E & Hnew).
  rewrite E. cbn [fst successful failed].
  assert (Elines : dataLines DataImportExport.templateData
                   = [ lit "Kepler-442b,112.3,850.2,6.25,15.8,1.2,5770,13.2,2024-01-01T00:00:00.000Z,Example exoplanet data";
                       lit "HD 40307 g,197.8,1200.5,8.12,12.4,0.77,4977,7.17,2024-01-02T00:00:00.000Z,Another example" ])
    by (vm_compute; reflexivity).
  rewrite Elines in *. split; [vm_compute; reflexivity|].
  assert (Efilter : forall l, filter validRow
                     [ lit "Kepler-442b,112.3,850.2,6.25,15.8,1.2,5770,13.2,2024-01-01T00:00:00.000Z,Example exoplanet data";
                       lit "HD 40307 g,197.8,1200.5,8.12,12.4,0.77,4977,7.17,2024-01-02T00:00:00.000Z,Another example" ] = l ->
                     l = [ lit "Kepler-442b,112.3,850.2,6.25,15.8,1.2,5770,13.2,2024-01-01T00:00:00.000Z,Example exoplanet data";
                       lit "HD 40307 g,197.8,1200.5,8.12,12.4,0.77,4977,7.17,2024-01-02T00:00:00.000Z,Another example" ]).
  { intros l <-. vm_compute. reflexivity. }
  rewrite (Efilter _ eq_refl) in Hnew.
  inversion Hnew as [|l1 e1 ls es1 [Hp1 Hd1] Hrest]; subst.
  inversion Hrest as [|l2 e2 ls2 es2 [Hp2 Hd2] Hnil]; subst.
  inversion Hnil; subst. cbn [List.map].
  rewrite Hp1, Hp2. split; [vm_compute; reflexivity|].
  unfold datedBy in Hd1, Hd2.
  assert (E1 : cellAt (parseCSVLine (lit "Kepler-442b,112.3,850.2,6.25,15.8,1.2,5770,13.2,2024-01-01T00:00:00.000Z,Example exoplanet data")) 8
               = Some (50%N :: lit "024-01-01T00:00:00.000Z"))
    by (vm_compute; reflexivity).
  assert (E2 : cellAt (parseCSVLine (lit "HD 40307 g,197.8,1200.5,8.12,12.4,0.77,4977,7.17,2024-01-02T00:00:00.000Z,Another example")) 8
               = Some (50%N :: lit "024-01-02T00:00:00.000Z"))
    by (vm_compute; reflexivity).
  rewrite E1 in Hd1. rewrite E2 in Hd2. rewrite Hd1, Hd2. reflexivity.
Qed.

Lemma digitsFuel_range (fuel : nat) :
  forall (n : N) (acc : jsstring),
    Forall (fun c => 43 <= c <= 57)%N acc ->
    Forall (fun c => 43 <= c <= 57)%N (digitsFuel fuel n acc).
Proof.
  assert (Hmod : forall n, (43 <= digitChar (n mod 10) <= 57)%N).
  { intros n. unfold digitChar.
    pose proof (N.mod_upper_bound n 10 ltac:(discriminate)) as H.
    revert H. generalize (n mod 10)%N. intros x Hx. lia. }
  induction fuel as [|fuel IH]; intros n acc Hacc; cbn [digitsFuel].
  - constructor; [apply Hmod|exact Hacc].
  - destruct (N.ltb_spec n 10).
    + constructor; [unfold digitChar; lia|exact Hacc].
    + apply IH. constructor; [apply Hmod|exact Hacc].
Qed.

Lemma pad_range (width : nat) (n : Z) :
  Forall (fun c => 43 <= c <= 57)%N (pad width n).
Proof.
  unfold pad. apply Forall_app. split.
  - induction (width - _)%nat as [|k IH]; cbn [repeat]; constructor;
      [lia|exact IH].
  - apply digitsFuel_range. constructor.
Qed.

Lemma dateStamp_range (t : Z) :
  Forall (fun c => 43 <= c <= 57)%N (dateStamp t).
Proof.
  unfold dateStamp. destruct (civilFromDays _) as [[y m] d].
  assert (Hdash : Forall (fun c => 43 <= c <= 57)%N (lit "-"))
    by (repeat constructor; cbn; lia).
  assert (Hyear : Forall (fun c => 43 <= c <= 57)%N (isoYear y)).
  { unfold isoYear. destruct ((0 <=? y)%Z && (y <=? 9999)%Z).
    - apply pad_range.
    - apply Forall_app. split; [|apply pad_range].
      destruct (y <? 0)%Z; repeat constructor; cbn; lia. }
  apply Forall_app. split; [exact Hyear|].
  apply Forall_app. split; [exact Hdash|].
  apply Forall_app. split; [apply pad_range|].
  apply Forall_app. split; [exact Hdash|apply pad_range].
Qed.

Lemma isoString_dateStamp (t : Z) :
  hd [] (split 84%N (isoString t)) = dateStamp t.
Proof.
  assert (E : exists rest, isoString t = dateStamp t ++ 84%N :: rest).
  { unfold isoString, dateStamp. destruct (civilFromDays _) as [[y m] d].
    eexists. rewrite <- !app_assoc. reflexivity. }
  destruct E as (rest & ->). rewrite split_app_sep; [reflexivity|].
  eapply Forall_impl; [|apply dateStamp_range]. intros c Hc. cbn beta in Hc.
  lia.
Qed.

(** X23. The export of the panel ends in one of three ways: on an empty
    collection it alerts that there is no data and saves nothing; when one
    record has an Invalid Date it alerts that the export failed and saves
    nothing, however many records are valid; otherwise it saves the text of
    the export under the name that holds the date of the clock, year,
    month and day. *)
Theorem handleExport_outcome (host : Host) (items : list ExoplanetData)
    (includeResult : bool) (w : World) :
  (items = [] ->
   fst (DataImportExport.handleExport host items includeResult w)
   = DataImportExport.Alert (lit "No data to export"))
  /\ (items <> [] ->
      Exists (fun item => dateAdded item = InvalidDate) items ->
      fst (DataImportExport.handleExport host items includeResult w)
      = DataImportExport.Alert
          (lit "Failed to export data. Please try again."))
  /\ (items <> [] ->
      Forall (fun item => exists t, dateAdded item = TimeValue t) items ->
      exists csv,
        exportToCSV items includeResult = Normal csv
        /\ fst (DataImportExport.handleExport host items includeResult w)
           = DataImportExport.SaveAs csv
               (lit "exoplanet-data-"
                ++ dateStamp (timeAt host (clockReads w)) ++ lit ".csv")).
Proof.
  unfold DataImportExport.handleExport. split; [|split].
  - intros ->. reflexivity.
  - intros Hne Hbad. destruct items as [|item items]; [congruence|].
    cbn [List.length Nat.eqb].
    destruct (export_throws (item :: items) includeResult Hbad) as (err & ->).
    reflexivity.
  - intros Hne Hvalid. destruct items as [|item items]; [congruence|].
    cbn [List.length Nat.eqb].
    rewrite (export_normal (item :: items) includeResult Hvalid).
    eexists. split; [reflexivity|].
    unfold bind, newDate, ret. cbn [toISOString fst].
    now rewrite isoString_dateStamp.
Qed.

Lemma handleExport_outcome_witness :
  exists csv,
    fst (DataImportExport.handleExport sampleHost [kepler442b; sirius] true
           start)
    = DataImportExport.SaveAs csv (lit "exoplanet-data-2023-11-14.csv").
Proof.
  destruct (handleExport_outcome sampleHost [kepler442b; sirius] true start)
    as (_ & _ & H).
  destruct H as (csv & _ & E).
  - discriminate.
  - repeat constructor; now eexists.
  - exists csv. rewrite E. f_equal.
Defined.

(** ** White space around the text, and the header *)

Lemma trimStart_app (a b : jsstring) :
  trimStart (a ++ b)
  = if forallb isWhiteSpace a then trimStart b else trimStart a ++ b.
Proof.
  induction a as [|c a IH]; [reflexivity|]. cbn [app trimStart forallb].
  destruct (isWhiteSpace c); [exact IH|reflexivity].
Qed.

Lemma blank_forallb (s : jsstring) : blank s <-> forallb isWhiteSpace s = true.
Proof.
  unfold blank. rewrite forallb_forall, Forall_forall. reflexivity.
Qed.

Lemma trimStart_blank (s : jsstring) : blank s -> trimStart s = [].
Proof.
  induction 1 as [|c s Hc _ IH]; [reflexivity|]. cbn [trimStart].
  now rewrite Hc.
Qed.

Lemma trimEnd_app_blank (x b : jsstring) :
  blank b -> trimEnd (x ++ b) = trimEnd x.
Proof.
  intros Hb. unfold trimEnd. rewrite rev_app_distr, trimStart_app.
  assert (H : forallb isWhiteSpace (rev b) = true)
    by (apply blank_forallb, Forall_rev, Hb).
  now rewrite H.
Qed.

Lemma trim_surrounded (a s b : jsstring) :
  blank a -> blank b -> trim (a ++ s ++ b) = trim s.
Proof.
  intros Ha Hb. unfold trim.
  rewrite trimStart_app. apply blank_forallb in Ha. rewrite Ha.
  rewrite trimStart_app. destruct (forallb isWhiteSpace s) eqn:Hs.
  - apply blank_forallb in Hs.
    now rewrite (trimStart_blank b Hb), (trimStart_blank s Hs).
  - now apply trimEnd_app_blank.
Qed.

(** X24. White space around the text does not count: a file that starts
    with a byte order mark or blank lines, or ends with line feeds or
    spaces, is imported exactly as the file without them. *)
Theorem surrounding_white_space_ignored (host : Host)
    (before csvContent after : jsstring) (w : World) :
  blank before -> blank after ->
  importFromCSV host (before ++ csvContent ++ after) w
  = importFromCSV host csvContent w.
Proof.
  intros Ha Hb. unfold importFromCSV. now rewrite trim_surrounded.
Qed.

Lemma surrounding_white_space_ignored_witness :
  importFromCSV sampleHost
    ([65279%N] ++ partialFile ++ [13; 10; 32; 10]%N) start
  = importFromCSV sampleHost partialFile start.
Proof.
  apply surrounding_white_space_ignored;
    repeat constructor.
Defined.

Lemma noLF_trimStart (s : jsstring) : noLF s -> noLF (trimStart s).
Proof.
  induction 1 as [|c s Hc Hs IH]; [constructor|]. cbn [trimStart].
  destruct (isWhiteSpace c); [exact IH|now constructor].
Qed.

Lemma noLF_trimEnd (s : jsstring) : noLF s -> noLF (trimEnd s).
Proof.
  intros H. unfold trimEnd. now apply Forall_rev, noLF_trimStart, Forall_rev.
Qed.

(** The data lines of a text are those of what follows its first line. *)
Lemma dataLines_header (c : char) (h body : jsstring) :
  isWhiteSpace c = false -> noLF (c :: h) ->
  dataLines ((c :: h) ++ LF :: body)
  = if forallb isWhiteSpace (rev body) then []
    else split LF (trimEnd body).
Proof.
  intros Hc Hh. unfold dataLines, linesOf, trim.
  assert (Estart : trimStart ((c :: h) ++ LF :: body)
                   = (c :: h) ++ LF :: body)
    by (cbn [app trimStart]; now rewrite Hc).
  rewrite Estart. unfold trimEnd at 1.
  rewrite rev_app_distr. cbn [rev]. rewrite <- !app_assoc.
  rewrite trimStart_app.
  destruct (forallb isWhiteSpace (rev body)) eqn:Hbody.
  - cbn [app trimStart]. change (isWhiteSpace LF) with true. cbn iota.
    change (rev h ++ [c]) with (rev h ++ [c]).
    assert (Hlf : noLF (rev (trimStart (rev h ++ [c])))).
    { apply Forall_rev, noLF_trimStart.
      change (rev h ++ [c]) with (rev (c :: h)). now apply Forall_rev. }
    now rewrite (split_noLF _ Hlf).
  - rewrite rev_app_distr. cbn [app rev]. rewrite rev_app_distr.
    rewrite rev_involutive. cbn [rev app]. rewrite <- app_assoc.
    cbn [app].
    change (c :: h ++ LF :: rev (trimStart (rev body)))
      with ((c :: h) ++ LF :: trimEnd body).
    now rewrite (split_app_LF _ _ Hh).
Qed.

(** X25. The import never reads the header: two texts that differ only in
    their first line, whatever column names it holds, are imported
    alike. *)
Theorem header_is_ignored (host : Host) (c1 c2 : char) (h1 h2 body : jsstring)
    (w : World) :
  isWhiteSpace c1 = false -> noLF (c1 :: h1) ->
  isWhiteSpace c2 = false -> noLF (c2 :: h2) ->
  importFromCSV host ((c1 :: h1) ++ LF :: body) w
  = importFromCSV host ((c2 :: h2) ++ LF :: body) w.
Proof.
  intros Hc1 Hh1 Hc2 Hh2.
  change (importLoop host 1 (dataLines ((c1 :: h1) ++ LF :: body))
            {| successful := []; failed := [] |} w
          = importLoop host 1 (dataLines ((c2 :: h2) ++ LF :: body))
              {| successful := []; failed := [] |} w).
  now rewrite (dataLines_header c1 h1 body Hc1 Hh1),
              (dataLines_header c2 h2 body Hc2 Hh2).
Qed.

Lemma header_is_ignored_witness :
  importFromCSV sampleHost
    (lit "planet;period" ++ LF
     :: lit "Kepler-22b,289.9,492,7.4,12.1,0.98,5518,11.66") start
  = importFromCSV sampleHost
      (lit headerLine ++ LF
       :: lit "Kepler-22b,289.9,492,7.4,12.1,0.98,5518,11.66") start.
Proof.
  apply (header_is_ignored sampleHost 112%N 78%N (lit "lanet;period")
           (List.tl (lit headerLine))); try reflexivity; literal_noLF.
Defined.

(** ** The validator and the import on the same tokens *)

Lemma parseFloatAt_nth (cells : list jsstring) (k : nat) :
  (k < List.length cells)%nat ->
  parseFloatAt cells k = parseFloat (nth k cells []).
Proof.
  intros Hk. unfold parseFloatAt, cellAt.
  now rewrite (nth_error_nth' cells [] Hk).
Qed.

Lemma accepted_not_NaN (value : jsstring) :
  accepted value = true -> negb (isNaN (parseFloat value)) = true.
Proof. unfold accepted. intros H. now apply andb_prop in H. Qed.

(** X26. The import is never stricter than the entry form: a row of at
    least 8 tokens whose first eight tokens, put in the form, pass the
    validator is a valid row, so that the import accepts it and builds its
    record. *)
Theorem import_accepts_what_the_form_accepts (host : Host)
    (csvContent : jsstring) (w : World) (i : nat) (line : jsstring) :
  (1 <= i)%nat ->
  nth_error (linesOf csvContent) i = Some line ->
  (8 <= List.length (parseCSVLine line))%nat ->
  validateFormData (formOfCells (parseCSVLine line)) = [] ->
  validRow line = true
  /\ exists e,
       In e (successful (fst (importFromCSV host csvContent w)))
       /\ payload e = payloadOfRow line.
Proof.
  intros Hi E Hlen Hform.
  assert (Hv : validRow line = true).
  { apply validateFormData_nil in Hform.
    destruct Hform as (Hname & Hfields & Hmag).
    unfold boundedFields, formOfCells in Hfields. cbn [forallb] in Hfields.
    cbn [Form.orbitalPeriod Form.transitDepth Form.transitDuration
         Form.signalToNoiseRatio Form.stellarRadius Form.stellarTemperature]
      in Hfields.
    rewrite !andb_true_iff in Hfields.
    destruct Hfields as (H1 & H2 & H3 & H4 & H5 & H6 & _).
    cbn [formOfCells Form.name Form.stellarMagnitude] in Hname, Hmag.
    unfold validRow, numbersOf. cbn [List.map forallb].
    rewrite !parseFloatAt_nth by lia.
    rewrite !accepted_not_NaN by assumption. rewrite Hmag.
    assert (E0 : cellAt (parseCSVLine line) 0
                 = Some (nth 0 (parseCSVLine line) []))
      by (apply nth_error_nth'; lia).
    rewrite E0, Hname. cbn [negb andb]. rewrite !andb_true_r.
    now apply Nat.leb_le. }
  split; [exact Hv|].
  destruct (importFromCSV_spec host csvContent w) as (new & w' & Er & Hnew).
  rewrite Er. cbn [fst successful].
  exact (valid_row_imported host _ _ (dataLines csvContent) new (i - 1) line
           Hnew (dataLines_nth csvContent i line Hi E) Hv).
Qed.

Lemma import_accepts_what_the_form_accepts_witness :
  exists e,
    In e (successful (fst (importFromCSV sampleHost shortRowFile start)))
    /\ name e = lit "TRAPPIST-1e".
Proof.
  destruct (import_accepts_what_the_form_accepts sampleHost shortRowFile
              start 2 (lit "TRAPPIST-1e,6.1,5000,1,30,0.12,2566,18.8"))
    as (_ & e & He & Hp).
  - lia.
  - vm_compute. reflexivity.
  - vm_compute. lia.
  - vm_compute. reflexivity.
  - exists e. split; [exact He|].
    change (name e) with (p_name (payload e)). rewrite Hp.
    vm_compute. reflexivity.
Defined.
